(** * SimpleTodo: item lifecycle, store gateway and countdown column

    A shallow embedding of the parts of the SimpleTodo application that carry
    its business rules:

    - [Api]: the C# back end, that is [ListsRepository] (the Cosmos DB
      gateway) and [TodoEndpointsExtensions] (the HTTP endpoints with the
      state/due-date/completion-date rules);
    - [Web]: the TypeScript front end, that is [saveTodoItem] of the detail
      pane and the countdown arm of [renderItemColumn] of the list pane.

    Time is integral: a [DateTimeOffset] is its count of UTC ticks (100 ns),
    a JavaScript [Date] its count of milliseconds since the epoch. *)

From Stdlib Require Import ZArith List String Ascii Bool Lia DecimalString.
Import ListNotations.

Open Scope string_scope.
Open Scope Z_scope.

(* ================================================================== *)
(** * The back end: namespace SimpleTodo.Api *)
(* ================================================================== *)

Module Api.

(** ** Data *)

(** A [DateTimeOffset] is compared ([>], [!=]) and subtracted on its UTC
    instant, so it is represented by its UTC tick count. *)
Definition DateTimeOffset := Z.

(** [TimeSpan.TicksPerHour]. *)
Definition TicksPerHour : Z := 36000000000.

(** [timeDifference.TotalHours >= 1]: [TotalHours] is the double
    [(double)ticks / TicksPerHour], which is at least [1.0] exactly when
    [ticks >= TicksPerHour] (a tick count around one hour is far below 2^53
    and converts exactly), so the test is stated on ticks. *)
Definition TotalHours_ge_1 (timeDifference : Z) : bool :=
  TicksPerHour <=? timeDifference.

(** Modelled from the spec: the [TodoItem] document class, whose declaration
    is not among the sources; the fields are those of the data model and the
    ones the repository and the endpoints read and write. *)
Record TodoItem : Type := mkTodoItem {
  Id : string;
  ListId : string;
  Name : string;
  Description : option string;
  State : string;
  DueDate : option DateTimeOffset;
  CompletedDate : option DateTimeOffset;
  CreatedDate : option DateTimeOffset;
  UpdatedDate : option DateTimeOffset
}.

(** Modelled from the spec: the [TodoList] document class (declaration not
    among the sources). *)
Record TodoList : Type := mkTodoList {
  ListDocId : string;
  ListName : string;
  ListDescription : option string;
  ListCreatedDate : option DateTimeOffset;
  ListUpdatedDate : option DateTimeOffset
}.

(** [record CreateUpdateTodoItem(name, state, dueDate, completedDate,
    description)]. *)
Record CreateUpdateTodoItem : Type := mkCreateUpdateTodoItem {
  name : string;
  state : string;
  dueDate : option DateTimeOffset;
  completedDate : option DateTimeOffset;
  description : option string
}.

(** Property setters: [existingItem.P = v]. *)
Definition set_Name (v : string) (i : TodoItem) : TodoItem :=
  mkTodoItem (Id i) (ListId i) v (Description i) (State i) (DueDate i)
             (CompletedDate i) (CreatedDate i) (UpdatedDate i).
Definition set_Description (v : option string) (i : TodoItem) : TodoItem :=
  mkTodoItem (Id i) (ListId i) (Name i) v (State i) (DueDate i)
             (CompletedDate i) (CreatedDate i) (UpdatedDate i).
Definition set_State (v : string) (i : TodoItem) : TodoItem :=
  mkTodoItem (Id i) (ListId i) (Name i) (Description i) v (DueDate i)
             (CompletedDate i) (CreatedDate i) (UpdatedDate i).
Definition set_DueDate (v : option DateTimeOffset) (i : TodoItem) : TodoItem :=
  mkTodoItem (Id i) (ListId i) (Name i) (Description i) (State i) v
             (CompletedDate i) (CreatedDate i) (UpdatedDate i).
Definition set_CompletedDate (v : option DateTimeOffset) (i : TodoItem)
  : TodoItem :=
  mkTodoItem (Id i) (ListId i) (Name i) (Description i) (State i) (DueDate i)
             v (CreatedDate i) (UpdatedDate i).
Definition set_UpdatedDate (v : option DateTimeOffset) (i : TodoItem)
  : TodoItem :=
  mkTodoItem (Id i) (ListId i) (Name i) (Description i) (State i) (DueDate i)
             (CompletedDate i) (CreatedDate i) v.

(** ** The world the code runs in *)

(** Requests sent to the item container, in the order they are sent. *)
Inductive Call : Type :=
| ReadItem (id : string)
| ReplaceItem (id : string)
| DeleteItem (id : string).

(** The two Cosmos containers hold their documents in the order a query
    enumerates them; the clock is the sequence of values successive reads of
    [DateTimeOffset.UtcNow] return. *)
Record World : Type := mkWorld {
  TodoListC : list TodoList;
  TodoItemC : list TodoItem;
  clock : nat -> DateTimeOffset;
  reads : nat;
  pageSize : nat;
  calls : list Call
}.

Definition set_items (docs : list TodoItem) (w : World) : World :=
  mkWorld (TodoListC w) docs (clock w) (reads w) (pageSize w) (calls w).
Definition tick (w : World) : World :=
  mkWorld (TodoListC w) (TodoItemC w) (clock w) (S (reads w)) (pageSize w)
          (calls w).
Definition record_call (c : Call) (w : World) : World :=
  mkWorld (TodoListC w) (TodoItemC w) (clock w) (reads w) (pageSize w)
          (calls w ++ [c]).

(** The [k]-th reading of the clock from now on. *)
Definition reading (w : World) (k : nat) : DateTimeOffset :=
  clock w (reads w + k)%nat.

Inductive Exception : Type :=
| CosmosException (StatusCode : Z).

Inductive Outcome (A : Type) : Type :=
| Returned (a : A)
| Faulted (e : Exception).
Arguments Returned {A} a.
Arguments Faulted {A} e.

(** An awaited [Task<A>]: it runs on the world and returns or throws. *)
Definition Task (A : Type) : Type := World -> Outcome A * World.

Definition ret {A : Type} (a : A) : Task A := fun w => (Returned a, w).
Definition bind {A B : Type} (m : Task A) (k : A -> Task B) : Task B :=
  fun w =>
    match m w with
    | (Returned a, w') => k a w'
    | (Faulted e, w') => (Faulted e, w')
    end.

Notation "x <- m ;; k" := (bind m (fun x => k))
  (at level 61, m at next level, right associativity).
Notation "m ;;; k" := (bind m (fun _ => k))
  (at level 61, right associativity).

(** [DateTimeOffset.UtcNow]. *)
Definition UtcNow : Task DateTimeOffset :=
  fun w => (Returned (clock w (reads w)), tick w).

(** ** The Cosmos item container *)

Record ItemResponse : Type := mkItemResponse { Resource : TodoItem }.

Definition has_id (id : string) (d : TodoItem) : bool := String.eqb (Id d) id.

(** [Container.ReadItemAsync<TodoItem>(id, new PartitionKey(id))]: the SDK
    throws a [CosmosException] with status 404 when there is no such
    document. *)
Definition ReadItemAsync (id : string) : Task (option ItemResponse) :=
  fun w =>
    match find (has_id id) (TodoItemC w) with
    | Some d =>
        (Returned (Some (mkItemResponse d)), record_call (ReadItem id) w)
    | None => (Faulted (CosmosException 404), record_call (ReadItem id) w)
    end.

(** [Container.DeleteItemAsync<TodoItem>(id, new PartitionKey(id))]. *)
Definition DeleteItemAsync (id : string) : Task unit :=
  fun w =>
    match find (has_id id) (TodoItemC w) with
    | Some _ =>
        (Returned tt,
         record_call (DeleteItem id)
           (set_items (filter (fun d => negb (has_id id d)) (TodoItemC w)) w))
    | None => (Faulted (CosmosException 404), record_call (DeleteItem id) w)
    end.

(** [Container.ReplaceItemAsync(item, id, new PartitionKey(id))]. *)
Definition ReplaceItemAsync (item : TodoItem) (id : string) : Task unit :=
  fun w =>
    match find (has_id id) (TodoItemC w) with
    | Some _ =>
        (Returned tt,
         record_call (ReplaceItem id)
           (set_items (map (fun d => if has_id id d then item else d)
                           (TodoItemC w)) w))
    | None => (Faulted (CosmosException 404), record_call (ReplaceItem id) w)
    end.

(** [Container.UpsertItemAsync(item, new PartitionKey(item.Id))]: the
    document replaces the one with its id, or is added when there is none.
    (The call log keeps point reads, replaces and deletes.) *)
Definition UpsertItemAsync (item : TodoItem) : Task unit :=
  fun w =>
    match find (has_id (Id item)) (TodoItemC w) with
    | Some _ =>
        (Returned tt,
         set_items (map (fun d => if has_id (Id item) d then item else d)
                        (TodoItemC w)) w)
    | None => (Returned tt, set_items (TodoItemC w ++ [item]) w)
    end.

(** ** The Cosmos list container *)

Record ListResponse : Type := mkListResponse { ListResource : TodoList }.

Definition has_list_id (id : string) (l : TodoList) : bool :=
  String.eqb (ListDocId l) id.

Definition set_lists (docs : list TodoList) (w : World) : World :=
  mkWorld docs (TodoItemC w) (clock w) (reads w) (pageSize w) (calls w).

(** [ReadItemAsync<TodoList>], [DeleteItemAsync<TodoList>] and
    [ReplaceItemAsync] on the list container; each throws a
    [CosmosException] with status 404 when there is no such document. *)
Definition ReadListAsync (id : string) : Task (option ListResponse) :=
  fun w =>
    match find (has_list_id id) (TodoListC w) with
    | Some l => (Returned (Some (mkListResponse l)), w)
    | None => (Faulted (CosmosException 404), w)
    end.

Definition DeleteListDocAsync (id : string) : Task unit :=
  fun w =>
    match find (has_list_id id) (TodoListC w) with
    | Some _ =>
        (Returned tt,
         set_lists (filter (fun l => negb (has_list_id id l)) (TodoListC w)) w)
    | None => (Faulted (CosmosException 404), w)
    end.

Definition ReplaceListAsync (list : TodoList) (id : string) : Task unit :=
  fun w =>
    match find (has_list_id id) (TodoListC w) with
    | Some _ =>
        (Returned tt,
         set_lists (map (fun l => if has_list_id id l then list else l)
                        (TodoListC w)) w)
    | None => (Faulted (CosmosException 404), w)
    end.

(** ** LINQ queries and the feed iterator *)

(** An [IQueryable<T>] is represented by the sequence of documents it
    evaluates to on the container. [Skip] and [Take] follow LINQ: a count
    that is not positive skips nothing, respectively takes nothing. *)
Definition IQueryable (T : Type) : Type := list T.

Definition Where {T : Type} (p : T -> bool) (q : IQueryable T) : IQueryable T :=
  filter p q.
Definition Skip {T : Type} (count : Z) (q : IQueryable T) : IQueryable T :=
  skipn (Z.to_nat count) q.
Definition Take {T : Type} (count : Z) (q : IQueryable T) : IQueryable T :=
  firstn (Z.to_nat count) q.

(** A [FeedIterator<T>] is the list of result pages it has not handed out
    yet. *)
Definition FeedIterator (T : Type) : Type := list (list T).

(** The server cuts a result into pages of at most [n] documents (at least
    one); the last page may be short, and an empty result still comes as one
    (empty) page. Each further page needs one unit of [fuel]. *)
Fixpoint pages {T : Type} (fuel n : nat) (q : list T) : FeedIterator T :=
  match fuel with
  | O => [q]
  | S fuel' =>
      let n := Nat.max 1 n in
      if (List.length q <=? n)%nat then [q]
      else firstn n q :: pages fuel' n (skipn n q)
  end.

Definition ToFeedIterator {T : Type} (n : nat) (q : IQueryable T)
  : FeedIterator T :=
  pages (List.length q) n q.

(** [foreach (var item in page) items.Add(item);] *)
Definition add_each {T : Type} (page items : list T) : list T :=
  fold_left (fun acc item => (acc ++ [item])%list) page items.

(** [while (iterator.HasMoreResults) foreach (... await
    iterator.ReadNextAsync()) ...]: the iterator has more results as long as
    pages remain, and [ReadNextAsync] hands out the first of them. *)
Fixpoint read_to_end {T : Type} (iterator : FeedIterator T) (items : list T)
  : list T :=
  match iterator with
  | [] => items
  | page :: rest => read_to_end rest (add_each page items)
  end.

(** ** class ListsRepository *)

Module ListsRepository.

Definition _listsCollection : Task (IQueryable TodoList) :=
  fun w => (Returned (TodoListC w), w).
Definition _itemsCollection : Task (IQueryable TodoItem) :=
  fun w => (Returned (TodoItemC w), w).

Definition ToListAsync {T : Type} (queryable : IQueryable T)
    (skip batchSize : option Z) : Task (list T) :=
  fun w =>
    let queryable :=
      match skip with
      | Some v => Skip v queryable
      | None => queryable
      end in
    let queryable :=
      match batchSize with
      | Some v => Take v queryable
      | None => queryable
      end in
    let iterator := ToFeedIterator (pageSize w) queryable in
    (Returned (read_to_end iterator []), w).

Definition GetListsAsync (skip batchSize : option Z) : Task (list TodoList) :=
  q <- _listsCollection ;;
  ToListAsync q skip batchSize.

Definition GetListItemsAsync (listId : string) (skip batchSize : option Z)
  : Task (list TodoItem) :=
  q <- _itemsCollection ;;
  ToListAsync (Where (fun i => String.eqb (ListId i) listId) q) skip batchSize.

Definition GetListItemsByStateAsync (listId state : string)
    (skip batchSize : option Z) : Task (list TodoItem) :=
  q <- _itemsCollection ;;
  ToListAsync
    (Where (fun i => String.eqb (ListId i) listId && String.eqb (State i) state)
           q)
    skip batchSize.

(** [response?.Resource.ListId != listId]: a null response compares unequal
    to the (non-null) list id. *)
Definition GetListItemAsync (listId itemId : string) : Task (option TodoItem) :=
  response <- ReadItemAsync itemId ;;
  match response with
  | None => ret None
  | Some r =>
      if negb (String.eqb (ListId (Resource r)) listId) then ret None
      else ret (Some (Resource r))
  end.

Definition DeleteListItemAsync (listId itemId : string) : Task unit :=
  DeleteItemAsync itemId.

Definition UpdateListItem (existingItem : TodoItem) : Task unit :=
  ReplaceItemAsync existingItem (Id existingItem).

(** The method mutates the caller's [existingItem] in place and returns
    nothing; here it returns the object as the caller finds it afterwards. *)
Definition UpdateListItemWithStateLogic (existingItem : TodoItem)
    (newState : string) (newDueDate newCompletedDate : option DateTimeOffset)
  : Task TodoItem :=
  let oldState := State existingItem in
  now <- UtcNow ;;
  let existingItem := set_State newState existingItem in
  let existingItem := set_DueDate newDueDate existingItem in
  let existingItem := set_UpdatedDate (Some now) existingItem in
  let existingItem :=
    if String.eqb oldState "done" && String.eqb newState "done"
       && match newDueDate with
          | Some v => now <? v
          | None => false
          end
    then
      let existingItem := set_State "todo" existingItem in
      set_CompletedDate None existingItem
    else if String.eqb newState "done" && negb (String.eqb oldState "done")
    then
      let existingItem := set_State "done" existingItem in
      set_CompletedDate
        (Some match newCompletedDate with
              | Some c => c
              | None => now
              end)
        existingItem
    else if negb (String.eqb newState "done")
    then set_CompletedDate None existingItem
    else set_CompletedDate newCompletedDate existingItem in
  ReplaceItemAsync existingItem (Id existingItem) ;;;
  ret existingItem.

(** [response?.Resource]. *)
Definition GetListAsync (listId : string) : Task (option TodoList) :=
  response <- ReadListAsync listId ;;
  ret (option_map ListResource response).

Definition DeleteListAsync (listId : string) : Task unit :=
  DeleteListDocAsync listId.

Definition UpdateList (existingList : TodoList) : Task unit :=
  ReplaceListAsync existingList (ListDocId existingList).

(** [item.Id = Guid.NewGuid().ToString("N")], then the upsert. The new guid
    is the argument [guid]; the method returns the caller's [item] as it is
    afterwards. *)
Definition AddListItemAsync (guid : string) (item : TodoItem) : Task TodoItem :=
  let item :=
    mkTodoItem guid (ListId item) (Name item) (Description item) (State item)
               (DueDate item) (CompletedDate item) (CreatedDate item)
               (UpdatedDate item) in
  UpsertItemAsync item ;;;
  ret item.

End ListsRepository.

(** ** class TodoEndpointsExtensions *)

Module TodoEndpointsExtensions.

(** The results the two item endpoints produce: [TypedResults.NotFound()],
    [TypedResults.Ok(item)] and [TypedResults.NoContent()]. *)
Inductive IResult : Type :=
| NotFound
| Ok (value : TodoItem)
| NoContent.

(** [item.completedDate ?? DateTimeOffset.UtcNow]: the clock is read only
    when the request carries no completed date. *)
Definition completedDate_or_UtcNow (item : CreateUpdateTodoItem)
  : Task DateTimeOffset :=
  match completedDate item with
  | Some c => ret c
  | None => UtcNow
  end.

Definition UpdateListItem (listId itemId : string)
    (item : CreateUpdateTodoItem) : Task IResult :=
  existingItem <- ListsRepository.GetListItemAsync listId itemId ;;
  match existingItem with
  | None => ret NotFound
  | Some existingItem =>
      let oldState := State existingItem in
      let oldDueDate := DueDate existingItem in
      let existingItem := set_Name (name item) existingItem in
      let existingItem := set_Description (description item) existingItem in
      let existingItem := set_DueDate (dueDate item) existingItem in
      let existingItem := set_State (state item) existingItem in
      updated <- UtcNow ;;
      let existingItem := set_UpdatedDate (Some updated) existingItem in
      existingItem <-
        (if String.eqb oldState "done" && String.eqb (state item) "done"
         then
           match dueDate item, oldDueDate with
           | Some newDue, Some oldDue =>
               if negb (newDue =? oldDue)
               then
                 now <- UtcNow ;;
                 let timeDifference := newDue - oldDue in
                 if (now <? newDue) && TotalHours_ge_1 timeDifference
                 then
                   let existingItem := set_State "todo" existingItem in
                   ret (set_CompletedDate None existingItem)
                 else ret existingItem
               else ret existingItem
           | _, _ => ret existingItem
           end
         else ret existingItem) ;;
      existingItem <-
        (if String.eqb (state item) "done" && negb (String.eqb oldState "done")
         then
           let existingItem := set_State "done" existingItem in
           c <- completedDate_or_UtcNow item ;;
           ret (set_CompletedDate (Some c) existingItem)
         else if negb (String.eqb (state item) "done")
         then ret (set_CompletedDate None existingItem)
         else ret (set_CompletedDate (completedDate item) existingItem)) ;;
      ListsRepository.UpdateListItem existingItem ;;;
      ret (Ok existingItem)
  end.

Definition DeleteListItem (listId itemId : string) : Task IResult :=
  found <- ListsRepository.GetListItemAsync listId itemId ;;
  match found with
  | None => ret NotFound
  | Some _ =>
      ListsRepository.DeleteListItemAsync listId itemId ;;;
      ret NoContent
  end.

(** The typed results of the other endpoints: [NotFound], [Ok<A>],
    [NoContent] and [Created<A>] with its location. *)
Inductive Results (A : Type) : Type :=
| Results_NotFound
| Results_Ok (value : A)
| Results_NoContent
| Results_Created (uri : string) (value : A).
Arguments Results_NotFound {A}.
Arguments Results_Ok {A} value.
Arguments Results_NoContent {A}.
Arguments Results_Created {A} uri value.

(** [record CreateUpdateTodoList(name, description)]. *)
Record CreateUpdateTodoList : Type := mkCreateUpdateTodoList {
  list_name : string;
  list_description : option string
}.

Definition GetLists (skip batchSize : option Z)
  : Task (Results (list TodoList)) :=
  lists <- ListsRepository.GetListsAsync skip batchSize ;;
  ret (Results_Ok lists).

Definition GetList (listId : string) : Task (Results TodoList) :=
  list <- ListsRepository.GetListAsync listId ;;
  match list with
  | None => ret Results_NotFound
  | Some l => ret (Results_Ok l)
  end.

Definition UpdateList (listId : string) (list : CreateUpdateTodoList)
  : Task (Results TodoList) :=
  existingList <- ListsRepository.GetListAsync listId ;;
  match existingList with
  | None => ret Results_NotFound
  | Some existingList =>
      now <- UtcNow ;;
      let existingList :=
        mkTodoList (ListDocId existingList) (list_name list)
                   (list_description list) (ListCreatedDate existingList)
                   (Some now) in
      ListsRepository.UpdateList existingList ;;;
      ret (Results_Ok existingList)
  end.

Definition DeleteList (listId : string) : Task (Results unit) :=
  found <- ListsRepository.GetListAsync listId ;;
  match found with
  | None => ret Results_NotFound
  | Some _ =>
      ListsRepository.DeleteListAsync listId ;;;
      ret Results_NoContent
  end.

Definition GetListItems (listId : string) (skip batchSize : option Z)
  : Task (Results (list TodoItem)) :=
  found <- ListsRepository.GetListAsync listId ;;
  match found with
  | None => ret Results_NotFound
  | Some _ =>
      items <- ListsRepository.GetListItemsAsync listId skip batchSize ;;
      ret (Results_Ok items)
  end.

(** Modelled from the spec: the constructor [new TodoItem(listId, name)] of
    the [TodoItem] class (declaration not among the sources): an item of
    that list, in state todo, without dates. *)
Definition new_TodoItem (listId name : string) : TodoItem :=
  mkTodoItem "" listId name None "todo" None None None None.

(** [guid] is the value [Guid.NewGuid().ToString("N")] returns inside
    [AddListItemAsync]. *)
Definition CreateListItem (guid : string) (listId : string)
    (item : CreateUpdateTodoItem) : Task (Results TodoItem) :=
  found <- ListsRepository.GetListAsync listId ;;
  match found with
  | None => ret Results_NotFound
  | Some _ =>
      let newItem := new_TodoItem listId (name item) in
      let newItem := set_Name (name item) newItem in
      let newItem := set_Description (description item) newItem in
      let newItem := set_State (state item) newItem in
      let newItem := set_DueDate (dueDate item) newItem in
      now <- UtcNow ;;
      let newItem :=
        mkTodoItem (Id newItem) (ListId newItem) (Name newItem)
                   (Description newItem) (State newItem) (DueDate newItem)
                   (CompletedDate newItem) (Some now) (UpdatedDate newItem) in
      newItem <- ListsRepository.AddListItemAsync guid newItem ;;
      ret (Results_Created ("/lists/" ++ listId ++ "/items" ++ Id newItem)
                           newItem)
  end.

Definition GetListItem (listId itemId : string) : Task IResult :=
  found <- ListsRepository.GetListAsync listId ;;
  match found with
  | None => ret NotFound
  | Some _ =>
      item <- ListsRepository.GetListItemAsync listId itemId ;;
      match item with
      | None => ret NotFound
      | Some i => ret (Ok i)
      end
  end.

Definition GetListItemsByState (listId state : string)
    (skip batchSize : option Z) : Task (Results (list TodoItem)) :=
  found <- ListsRepository.GetListAsync listId ;;
  match found with
  | None => ret Results_NotFound
  | Some _ =>
      items <-
        ListsRepository.GetListItemsByStateAsync listId state skip batchSize ;;
      ret (Results_Ok items)
  end.

End TodoEndpointsExtensions.

(** ** Vocabulary of the properties *)

(** The document stored under [itemId], if any. *)
Definition stored (w : World) (itemId : string) : option TodoItem :=
  find (has_id itemId) (TodoItemC w).

(** [e] is the document stored under [itemId] and belongs to [listId]. *)
Definition existing (w : World) (listId itemId : string) (e : TodoItem)
  : Prop :=
  stored w itemId = Some e /\ ListId e = listId.

(** The calls sent to the item container between two worlds. *)
Definition calls_since (w w' : World) : list Call :=
  skipn (List.length (calls w)) (calls w').

(** The rule that reopens a completed item, as the endpoint has it: both the
    stored and the requested state are done, a due date is requested that
    differs from the stored one, lies strictly after [now], and exceeds the
    stored one by at least an hour. *)
Definition reopen_rule (e : TodoItem) (item : CreateUpdateTodoItem)
    (now : DateTimeOffset) : bool :=
  String.eqb (State e) "done" && String.eqb (state item) "done"
  && match dueDate item, DueDate e with
     | Some newDue, Some oldDue =>
         negb (newDue =? oldDue) && (now <? newDue)
         && (TicksPerHour <=? newDue - oldDue)
     | _, _ => false
     end.

(** The rule as [UpdateListItemWithStateLogic] has it: both states are done
    and the requested due date lies strictly after [now]. *)
Definition lax_reopen_rule (e : TodoItem) (newState : string)
    (newDueDate : option DateTimeOffset) (now : DateTimeOffset) : bool :=
  String.eqb (State e) "done" && String.eqb newState "done"
  && match newDueDate with
     | Some newDue => now <? newDue
     | None => false
     end.

(** The completed date is set exactly on the items that are done. *)
Definition completed_iff_done (i : TodoItem) : Prop :=
  CompletedDate i <> None <-> State i = "done".

(** Pagination as the specification words it: drop [skip] elements when a
    skip is given, then keep at most [limit] elements when a limit is
    given. *)
Definition page_of {T : Type} (skip limit : option Z) (l : list T) : list T :=
  let l :=
    match skip with
    | Some s => skipn (Z.to_nat s) l
    | None => l
    end in
  match limit with
  | Some n => firstn (Z.to_nat n) l
  | None => l
  end.

(** ** A sample store *)

Definition hour (n : Z) : DateTimeOffset := n * TicksPerHour.

(** A completed item of list A, due at hour 10 and completed at hour 9. *)
Definition report : TodoItem :=
  mkTodoItem "i1" "A" "report" None "done" (Some (hour 10)) (Some (hour 9))
             (Some (hour 1)) (Some (hour 9)).

(** An item of list A that is in progress. *)
Definition slides : TodoItem :=
  mkTodoItem "i2" "A" "slides" None "inprogress" (Some (hour 30)) None
             (Some (hour 2)) (Some (hour 3)).

(** A completed item of list B without a due date. *)
Definition errand : TodoItem :=
  mkTodoItem "i3" "B" "errand" None "done" None (Some (hour 4))
             (Some (hour 1)) (Some (hour 4)).

(** The store at hour 5: the clock stands still. *)
Definition sample : World :=
  mkWorld [mkTodoList "A" "work" None None None;
           mkTodoList "B" "home" None None None]
          [report; slides; errand]
          (fun _ => hour 5) 0 2 [].

(** The list document stored under [listId], if any. *)
Definition stored_list (w : World) (listId : string) : option TodoList :=
  find (has_list_id listId) (TodoListC w).

(** The request to put the slides back to todo, with a completed date that
    has no business there. *)
Definition resume : CreateUpdateTodoItem :=
  mkCreateUpdateTodoItem "slides" "todo" None (Some (hour 3)) (Some "again").

(** A new item for list A. *)
Definition agenda : CreateUpdateTodoItem :=
  mkCreateUpdateTodoItem "agenda" "todo" (Some (hour 20)) None None.

(** ** Sample requests *)

(** Keep the report done and leave its due date and completed date alone,
    but send no completed date. *)
Definition keep_done_blank : CreateUpdateTodoItem :=
  mkCreateUpdateTodoItem "report" "done" (Some (hour 10)) None None.

(** Keep the report done without touching its due date. *)
Definition keep_done : CreateUpdateTodoItem :=
  mkCreateUpdateTodoItem "report" "done" (Some (hour 10)) (Some (hour 9)) None.

(** Keep the report done and move its due date two hours on, the way the
    detail pane sends it: with the completed date the item already has. *)
Definition postpone : CreateUpdateTodoItem :=
  mkCreateUpdateTodoItem "report" "done" (Some (hour 12)) (Some (hour 9)) None.

(** Complete the slides without saying when. *)
Definition finish : CreateUpdateTodoItem :=
  mkCreateUpdateTodoItem "slides" "done" (Some (hour 30)) None None.

(** Keep the errand done and give it a due date far ahead. *)
Definition schedule : CreateUpdateTodoItem :=
  mkCreateUpdateTodoItem "errand" "done" (Some (hour 100)) (Some (hour 4)) None.

End Api.

(* ================================================================== *)
(** * The front end: src/web *)
(* ================================================================== *)

Module Web.

(** ** Data *)

(** Modelled from the spec: the [TodoItemState] enumeration of [models]
    (declaration not among the sources); a state is one of Todo, InProgress
    and Done. *)
Inductive TodoItemState : Type := Todo | InProgress | Done.

Definition TodoItemState_eqb (a b : TodoItemState) : bool :=
  match a, b with
  | Todo, Todo | InProgress, InProgress | Done, Done => true
  | _, _ => false
  end.

(** A JavaScript [Date]: a time value in milliseconds, or Invalid Date. *)
Inductive Date : Type :=
| Instant (ms : Z)
| InvalidDate.

(** The integral JavaScript numbers the code computes with; [None] is NaN. *)
Definition Number : Type := option Z.

(** Modelled from the spec: the [TodoItem] interface of [models] (declaration
    not among the sources); optional members are [option]s. *)
Record TodoItem : Type := mkTodoItem {
  id : option string;
  listId : string;
  name : string;
  state : TodoItemState;
  description : option string;
  dueDate : option Date;
  completedDate : option Date;
  createdDate : option Date;
  updatedDate : option Date
}.

(** [interface LocationData]; the coordinates play no part here and are left
    out. *)
Record LocationData : Type := mkLocationData {
  timezone : string;
  city : option string;
  country : option string
}.

(** The [Date | string] of [TodoDisplayItem.originalDueDate]. *)
Inductive DateOrString : Type :=
| ADate (d : Date)
| AString (s : string).

(** [interface TodoDisplayItem], the members the countdown reads. *)
Record TodoDisplayItem : Type := mkTodoDisplayItem {
  display_name : string;
  display_state : TodoItemState;
  display_description : option string;
  display_dueDate : string;
  display_completedDate : string;
  data : TodoItem;
  originalDueDate : option DateOrString
}.

(** ** The browser *)

(** What the code asks of the platform and of its libraries: the clock (the
    values successive [new Date()] and [Date.now()] return), the location
    service's cache, the system time zone, and the calendar functions of
    [Date], [date-fns] and [date-fns-tz], which depend on time-zone data. *)
Record Browser : Type := mkBrowser {
  clock : nat -> Z;
  reads : nat;
  cachedLocation : option LocationData;
  resolvedTimeZone : string;
  parse : string -> Date;
  lib_toZonedTime : Date -> string -> Date;
  lib_differenceInDays : Date -> Date -> Number;
  lib_setHours : Date -> Number -> Number -> Date;
  lib_inTimeZone : Date -> string -> Date
}.

Definition tick (b : Browser) : Browser :=
  mkBrowser (clock b) (S (reads b)) (cachedLocation b) (resolvedTimeZone b)
            (parse b) (lib_toZonedTime b) (lib_differenceInDays b)
            (lib_setHours b) (lib_inTimeZone b).

(** A computation in the browser. *)
Definition JS (A : Type) : Type := Browser -> A * Browser.

Definition ret {A : Type} (a : A) : JS A := fun b => (a, b).
Definition bind {A B : Type} (m : JS A) (k : A -> JS B) : JS B :=
  fun b => let (a, b') := m b in k a b'.
Definition asks {A : Type} (f : Browser -> A) : JS A := fun b => (f b, b).

Notation "x <- m ;; k" := (bind m (fun x => k))
  (at level 61, m at next level, right associativity).

(** [Date.now()]. *)
Definition Date_now : JS Z := fun b => (clock b (reads b), tick b).

(** [new Date()]. *)
Definition new_Date : JS Date :=
  t <- Date_now ;; ret (Instant t).

(** [new Date(value)] for a [Date] or a string. *)
Definition new_Date_of (value : DateOrString) : JS Date :=
  match value with
  | ADate d => ret d
  | AString s => asks (fun b => parse b s)
  end.

(** [toZonedTime(date, timeZone)] of date-fns-tz. *)
Definition toZonedTime (date : Date) (timeZone : string) : JS Date :=
  asks (fun b => lib_toZonedTime b date timeZone).

(** [isPast(date)] of date-fns: [+toDate(date) < Date.now()]. *)
Definition isPast (date : Date) : JS bool :=
  t <- Date_now ;;
  ret match date with
      | Instant d => d <? t
      | InvalidDate => false
      end.

(** [differenceInMilliseconds]; the other differences truncate its quotient
    towards zero. *)
Definition differenceInMilliseconds (later earlier : Date) : Number :=
  match later, earlier with
  | Instant l, Instant e => Some (l - e)
  | _, _ => None
  end.

Definition differenceInSeconds (later earlier : Date) : Number :=
  option_map (fun d => Z.quot d 1000) (differenceInMilliseconds later earlier).
Definition differenceInMinutes (later earlier : Date) : Number :=
  option_map (fun d => Z.quot d 60000) (differenceInMilliseconds later earlier).
Definition differenceInHours (later earlier : Date) : Number :=
  option_map (fun d => Z.quot d 3600000)
             (differenceInMilliseconds later earlier).
Definition differenceInDays (later earlier : Date) : JS Number :=
  asks (fun b => lib_differenceInDays b later earlier).

(** [x % m] and [x <= m] on numbers; a comparison with NaN is false. *)
Definition Number_rem (x : Number) (m : Z) : Number :=
  option_map (fun v => Z.rem v m) x.
Definition Number_le (x : Number) (m : Z) : bool :=
  match x with
  | Some v => v <=? m
  | None => false
  end.

(** A number inside a template literal. *)
Definition Number_toString (x : Number) : string :=
  match x with
  | Some v => NilZero.string_of_int (Z.to_int v)
  | None => "NaN"
  end.

(** A string is truthy when it is not empty. *)
Definition truthy (s : string) : bool := negb (String.eqb s "").

(** ** locationService *)

(** [LocationService.getCurrentTimezone]. *)
Definition getCurrentTimezone : JS string :=
  cached <- asks cachedLocation ;;
  match cached with
  | Some l =>
      if truthy (timezone l) then ret (timezone l)
      else asks resolvedTimeZone
  | None => asks resolvedTimeZone
  end.

(** ** todoItemListPane: the countdown column *)

(** The [<Text>] element a cell renders: its content and the colour and font
    weight of its style. *)
Record Text : Type := mkText {
  children : string;
  color : string;
  fontWeight : string
}.

(** [item.originalDueDate && item.originalDueDate !== 'None']. *)
Definition has_due (v : option DateOrString) : bool :=
  match v with
  | None => false
  | Some (ADate _) => true
  | Some (AString s) => truthy s && negb (String.eqb s "None")
  end.

(** [userLocation?.timezone || locationService.getCurrentTimezone()]. *)
Definition userTimezone_of (userLocation : option LocationData) : JS string :=
  match userLocation with
  | Some l =>
      if truthy (timezone l) then ret (timezone l) else getCurrentTimezone
  | None => getCurrentTimezone
  end.

(** [userLocation?.city ? ` (${userLocation.city})` : ''] *)
Definition locationInfo_of (userLocation : option LocationData) : string :=
  match userLocation with
  | Some l =>
      match city l with
      | Some c => if truthy c then " (" ++ c ++ ")" else ""
      | None => ""
      end
  | None => ""
  end.

(** The [case "countdown"] arm of [renderItemColumn]. The three mutable
    locals [countdownText], [countdownColor] and [totalMinutes] are the
    triple the inner computation returns. *)
Definition renderItemColumn_countdown (userLocation : option LocationData)
    (item : TodoDisplayItem) : JS Text :=
  if TodoItemState_eqb (display_state item) Done
  then ret (mkText "Complete" "#107c10" "bold")
  else
    let countdownText := "N/A" in
    let countdownColor := "#666" in
    let totalMinutes : Number := Some 0 in
    locals <-
      (match originalDueDate item with
       | Some v =>
           if has_due (Some v)
           then
             due <- new_Date_of v ;;
             userTimezone <- userTimezone_of userLocation ;;
             now <- new_Date ;;
             zonedNow <- toZonedTime now userTimezone ;;
             zonedDue <- toZonedTime due userTimezone ;;
             past <- isPast zonedDue ;;
             if past
             then ret ("Due!", "#d13438", totalMinutes)
             else
               let totalMinutes := differenceInMinutes zonedDue zonedNow in
               days <- differenceInDays zonedDue zonedNow ;;
               let hours :=
                 Number_rem (differenceInHours zonedDue zonedNow) 24 in
               let minutes :=
                 Number_rem (differenceInMinutes zonedDue zonedNow) 60 in
               let seconds :=
                 Number_rem (differenceInSeconds zonedDue zonedNow) 60 in
               let countdownColor :=
                 if Number_le totalMinutes 60 then "#d13438"
                 else if Number_le totalMinutes 360 then "#ff8c00"
                 else if Number_le totalMinutes 1440 then "#ffd700"
                 else if Number_le totalMinutes 4320 then "#90ee90"
                 else "#107c10" in
               let locationInfo := locationInfo_of userLocation in
               ret (Number_toString days ++ "d "
                      ++ Number_toString hours ++ "h "
                      ++ Number_toString minutes ++ "m "
                      ++ Number_toString seconds ++ "s" ++ locationInfo,
                    countdownColor, totalMinutes)
           else ret (countdownText, countdownColor, totalMinutes)
       | None => ret (countdownText, countdownColor, totalMinutes)
       end) ;;
    let '(countdownText, countdownColor, totalMinutes) := locals in
    ret (mkText countdownText countdownColor
           (if Number_le totalMinutes 360 then "600" else "400")).

(** ** todoItemDetailPane: saving the form *)

(** [String.prototype.split(':')]. *)
Fixpoint split_colon (s : string) : list string :=
  match s with
  | EmptyString => [""]
  | String c rest =>
      let r := split_colon rest in
      if Ascii.eqb c ":" then "" :: r
      else
        match r with
        | h :: t => String c h :: t
        | [] => [String c ""]
        end
  end.

Definition is_space (c : ascii) : bool :=
  let n := nat_of_ascii c in
  (Nat.eqb n 32 || (Nat.leb 9 n && Nat.leb n 13))%bool.

Fixpoint skip_spaces (s : string) : string :=
  match s with
  | EmptyString => ""
  | String c rest => if is_space c then skip_spaces rest else s
  end.

Definition digit_of (c : ascii) : option Z :=
  let n := Z.of_nat (nat_of_ascii c) in
  if (48 <=? n) && (n <=? 57) then Some (n - 48) else None.

(** The value of the longest prefix of decimal digits; NaN when it is
    empty. *)
Fixpoint digits (s : string) (acc : Number) : Number :=
  match s with
  | EmptyString => acc
  | String c rest =>
      match digit_of c with
      | Some d =>
          let a := match acc with Some a => a | None => 0 end in
          digits rest (Some (10 * a + d))
      | None => acc
      end
  end.

(** [parseInt(s, 10)]; [s] is [None] for [undefined]. *)
Definition parseInt (s : option string) : Number :=
  match s with
  | None => None
  | Some s =>
      match skip_spaces s with
      | String "-" rest => option_map Z.opp (digits rest None)
      | String "+" rest => digits rest None
      | t => digits t None
      end
  end.

(** [dateOnly.setHours(h, m, 0, 0)], in the system time zone. *)
Definition setHours (date : Date) (h m : Number) : JS Date :=
  asks (fun b => lib_setHours b date h m).

(** [new Date(date.toLocaleString('en-US', { timeZone }))]. *)
Definition inTimeZone (date : Date) (timeZone : string) : JS Date :=
  asks (fun b => lib_inTimeZone b date timeZone).

(** [let combinedDueDate = dueDate; if (dueDate && dueTime) { ... }]: the
    date picked, with the time of day typed in when there is one. *)
Definition combinedDueDate_of (dueDate : option Date) (dueTime : string)
  : JS (option Date) :=
  match dueDate with
  | Some d =>
      if truthy dueTime
      then
        let parts := split_colon dueTime in
        let hours := nth_error parts 0 in
        let minutes := nth_error parts 1 in
        dateOnly <- setHours d (parseInt hours) (parseInt minutes) ;;
        userTimezone <- getCurrentTimezone ;;
        combined <- inTimeZone dateOnly userTimezone ;;
        ret (Some combined)
      else ret dueDate
  | None => ret dueDate
  end.

(** [saveTodoItem] of the detail pane, given the component's [props.item] and
    its state variables. It returns the item it hands to [props.onEdit], or
    [None] when it returns without calling it. *)
Definition saveTodoItem (props_item : option TodoItem) (name : string)
    (description : option string) (dueDate : option Date) (dueTime : string)
    (state : TodoItemState) : JS (option TodoItem) :=
  match props_item with
  | None => ret None
  | Some item =>
      match id item with
      | None => ret None
      | Some item_id =>
          if negb (truthy item_id) then ret None
          else
            combinedDueDate <- combinedDueDate_of dueDate dueTime ;;
            completed <-
              (if TodoItemState_eqb state Done
               then
                 match completedDate item with
                 | Some c => ret (Some c)
                 | None => d <- new_Date ;; ret (Some d)
                 end
               else ret None) ;;
            updated <- new_Date ;;
            ret (Some (mkTodoItem (Some item_id) (listId item) name state
                         description combinedDueDate completed
                         (createdDate item) (Some updated)))
      end
  end.

(** ** itemService: the body of the update request *)

Module ItemService.

(** The object literal [updateData] that [updateItem] sends with its PUT. *)
Record UpdateData : Type := mkUpdateData {
  name : string;
  state : TodoItemState;
  dueDate : option Date;
  completedDate : option Date;
  description : option string
}.

Definition updateData (entity : TodoItem) : UpdateData :=
  mkUpdateData (Web.name entity) (Web.state entity) (Web.dueDate entity)
               (Web.completedDate entity) (Web.description entity).

End ItemService.

(** ** Vocabulary of the properties *)

(** Whether a character occurs in a string. *)
Fixpoint mentions (c : ascii) (s : string) : bool :=
  match s with
  | EmptyString => false
  | String a rest => Ascii.eqb a c || mentions c rest
  end.

(** ** A sample browser *)

(** [differenceInDays] and [setHours] where the system time zone is UTC. *)
Definition utc_differenceInDays (later earlier : Date) : Number :=
  option_map (fun d => Z.quot d 86400000)
             (differenceInMilliseconds later earlier).

Definition utc_setHours (date : Date) (h m : Number) : Date :=
  match date, h, m with
  | Instant t, Some h, Some m =>
      Instant (t - t mod 86400000 + h * 3600000 + m * 60000)
  | _, _, _ => InvalidDate
  end.

(** A browser whose system time zone is UTC, with no location known, so that
    conversions into the user's time zone change nothing; its clock stands
    at one million milliseconds. *)
Definition desk : Browser :=
  mkBrowser (fun _ => 1000000) 0 None "UTC" (fun _ => InvalidDate)
            (fun d _ => d) utc_differenceInDays utc_setHours (fun d _ => d).

(** A task in progress, never completed. *)
Definition slides : TodoItem :=
  mkTodoItem (Some "i2") "A" "slides" InProgress None
             (Some (Instant 86400000)) None (Some (Instant 7200)) None.

(** A task that is due at this very millisecond, and one that was due a
    millisecond ago. *)
Definition due_now : TodoDisplayItem :=
  mkTodoDisplayItem "slides" InProgress None "Thu Jan 01 1970" "N/A" slides
                    (Some (ADate (Instant 1000000))).

Definition just_missed : TodoDisplayItem :=
  mkTodoDisplayItem "slides" InProgress None "Thu Jan 01 1970" "N/A" slides
                    (Some (ADate (Instant 999999))).

(** ** itemService: saving an entity *)

Module ItemServiceCalls.

(** The request configuration handed to [this.client.request]. *)
Record Request : Type := mkRequest {
  method : string;
  url : option string;
  data : ItemService.UpdateData
}.

(** [createItem]: a POST of [createData], which has the members of
    [updateData]. *)
Definition createItem (entity : TodoItem) : Request :=
  mkRequest "POST" None (ItemService.updateData entity).

(** [updateItem]: a PUT of [updateData] to the entity's id. *)
Definition updateItem (entity : TodoItem) : Request :=
  mkRequest "PUT" (id entity) (ItemService.updateData entity).

(** [save]: [if (entity.id)] update, else create. *)
Definition save (entity : TodoItem) : Request :=
  match id entity with
  | Some i => if truthy i then updateItem entity else createItem entity
  | None => createItem entity
  end.

End ItemServiceCalls.

(** ** todoItemListPane: the list of display items *)

(** [onFormSubmit]: the item handed to [props.onCreated], if any; [list_id]
    is [props.list?.id]. *)
Definition onFormSubmit (newItemName : string) (list_id : option string)
  : option TodoItem :=
  if truthy newItemName
  then
    Some (mkTodoItem None
            match list_id with
            | Some i => if truthy i then i else ""
            | None => ""
            end
            newItemName Todo None None None None None)
  else None.

(** [createListItems]; [toDateString] is [Date.prototype.toDateString]. *)
Definition createListItems (toDateString : Date -> string)
    (items : list TodoItem) : list TodoDisplayItem :=
  map (fun item =>
         mkTodoDisplayItem
           (name item) (state item) (description item)
           match dueDate item with
           | Some d => toDateString d
           | None => "None"
           end
           match completedDate item with
           | Some d => toDateString d
           | None => "N/A"
           end
           item
           (option_map ADate (dueDate item)))
      items.

(** [Array.prototype.findIndex], which is [-1] when nothing is found. *)
Fixpoint findIndex {A : Type} (p : A -> bool) (l : list A) : Z :=
  match l with
  | [] => -1
  | x :: rest =>
      if p x then 0
      else
        let i := findIndex p rest in
        if i <? 0 then -1 else i + 1
  end.

(** An [IGroup] of the details list. *)
Record IGroup : Type := mkIGroup {
  key : TodoItemState;
  group_name : string;
  count : nat;
  startIndex : Z;
  isCollapsed : option bool
}.

Definition in_state (s : TodoItemState) (i : TodoDisplayItem) : bool :=
  TodoItemState_eqb (display_state i) s.

(** The [groups] memo. *)
Definition groups (items : list TodoDisplayItem)
    (isDoneCategoryCollapsed : bool) : list IGroup :=
  [ mkIGroup Todo "Todo"
             (List.length (filter (in_state Todo) items))
             (findIndex (in_state Todo) items) None;
    mkIGroup InProgress "In Progress"
             (List.length (filter (in_state InProgress) items))
             (findIndex (in_state InProgress) items) None;
    mkIGroup Done "Done"
             (List.length (filter (in_state Done) items))
             (findIndex (in_state Done) items)
             (Some isDoneCategoryCollapsed) ].

(** ** todoItemDetailPane: showing the due time *)

(** [s.padStart(2, '0')]. *)
Definition padStart2 (s : string) : string :=
  match String.length s with
  | O => "00"
  | S O => "0" ++ s
  | _ => s
  end.

(** The effect on [props.item]: [`${hours}:${minutes}`] with both numbers
    padded to two characters; [hours] and [minutes] are [date.getHours()]
    and [date.getMinutes()]. *)
Definition dueTime_of (hours minutes : Number) : string :=
  padStart2 (Number_toString hours) ++ ":"
  ++ padStart2 (Number_toString minutes).

(** ** More vocabulary and samples *)

(** The colour of the countdown for a given number of milliseconds left,
    with the bounds of the tiers in milliseconds. *)
Definition color_of_remaining (ms : Z) : string :=
  if ms <? 3660000 then "#d13438"
  else if ms <? 21660000 then "#ff8c00"
  else if ms <? 86460000 then "#ffd700"
  else if ms <? 259260000 then "#90ee90"
  else "#107c10".

(** A task whose due date the server sent as text no date can be read
    from. *)
Definition garbled : TodoDisplayItem :=
  mkTodoDisplayItem "slides" InProgress None "Invalid Date" "N/A" slides
                    (Some (AString "soon")).

(** A task due in two hours. *)
Definition due_soon : TodoDisplayItem :=
  mkTodoDisplayItem "slides" InProgress None "Thu Jan 01 1970" "N/A" slides
                    (Some (ADate (Instant 8200000))).

(** A finished task and one without any dates, and a stand-in for
    [toDateString]. *)
Definition finished : TodoItem :=
  mkTodoItem (Some "i1") "A" "report" Done None (Some (Instant 500))
             (Some (Instant 400)) None None.

Definition undated : TodoItem :=
  mkTodoItem (Some "i4") "A" "ideas" Todo None None None None None.

Definition some_day (d : Date) : string := "Thu Jan 01 1970".

End Web.

(* ================================================================== *)
(** * Properties of the back end *)
(* ================================================================== *)

Module ApiFacts.

Import Api.

(** ** The store gateway *)

Lemma stored_Id w itemId e : stored w itemId = Some e -> Id e = itemId.
Proof.
  unfold stored. intros H. apply find_some in H. destruct H as [_ H].
  unfold has_id in H. now apply String.eqb_eq.
Qed.

Lemma calls_since_app w w' cs :
  calls w' = (calls w ++ cs)%list -> calls_since w w' = cs.
Proof.
  unfold calls_since. intros ->.
  rewrite skipn_app, skipn_all, Nat.sub_diag. reflexivity.
Qed.

Section Lookup.

Variables (w : World) (listId itemId : string).

Lemma GetListItemAsync_hit e :
  existing w listId itemId e ->
  ListsRepository.GetListItemAsync listId itemId w
  = (Returned (Some e), record_call (ReadItem itemId) w).
Proof.
  intros [Hs Hl]. unfold ListsRepository.GetListItemAsync, bind, ReadItemAsync.
  unfold stored in Hs. rewrite Hs. cbn.
  apply String.eqb_eq in Hl. rewrite Hl. reflexivity.
Qed.

Lemma GetListItemAsync_other_list e :
  stored w itemId = Some e -> ListId e <> listId ->
  ListsRepository.GetListItemAsync listId itemId w
  = (Returned None, record_call (ReadItem itemId) w).
Proof.
  intros Hs Hl. unfold ListsRepository.GetListItemAsync, bind, ReadItemAsync.
  unfold stored in Hs. rewrite Hs. cbn.
  apply String.eqb_neq in Hl. rewrite Hl. reflexivity.
Qed.

Lemma GetListItemAsync_absent :
  stored w itemId = None ->
  ListsRepository.GetListItemAsync listId itemId w
  = (Faulted (CosmosException 404), record_call (ReadItem itemId) w).
Proof.
  intros Hs. unfold ListsRepository.GetListItemAsync, bind, ReadItemAsync.
  unfold stored in Hs. rewrite Hs. reflexivity.
Qed.

(** The three ways the scoped lookup can go. *)
Lemma GetListItemAsync_cases :
  (exists e, existing w listId itemId e)
  \/ (exists e, stored w itemId = Some e /\ ListId e <> listId)
  \/ stored w itemId = None.
Proof.
  destruct (stored w itemId) as [e|] eqn:Hs; [|now right; right].
  destruct (String.eqb (ListId e) listId) eqn:Hl.
  - left. exists e. split; [exact Hs|]. now apply String.eqb_eq.
  - right; left. exists e. split; [reflexivity|]. now apply String.eqb_neq.
Qed.

Lemma GetListItemAsync_Some e w1 :
  ListsRepository.GetListItemAsync listId itemId w = (Returned (Some e), w1) ->
  existing w listId itemId e.
Proof.
  intros H.
  destruct GetListItemAsync_cases as [[e' He]|[[e' [Hs Hl]]|Hs]].
  - rewrite (GetListItemAsync_hit _ He) in H.
    injection H as <- _. exact He.
  - rewrite (GetListItemAsync_other_list _ Hs Hl) in H. discriminate.
  - rewrite (GetListItemAsync_absent Hs) in H. discriminate.
Qed.

End Lookup.

(** C6. Cross-list isolation of [GetListItemAsync]: when a document is stored
    under [itemId], the lookup scoped to [listId] returns null if the
    document belongs to another list, although it exists; it returns the
    document if its [ListId] is the requested one, and whenever it returns
    a document, that is the stored one and its [ListId] is the requested
    one. *)
Theorem C6_GetListItemAsync_scoped_to_list :
  forall (w : World) (listId itemId : string) (e : TodoItem),
    stored w itemId = Some e ->
    (ListId e <> listId ->
     fst (ListsRepository.GetListItemAsync listId itemId w) = Returned None)
    /\ (ListId e = listId ->
        fst (ListsRepository.GetListItemAsync listId itemId w)
        = Returned (Some e))
    /\ (forall r,
        fst (ListsRepository.GetListItemAsync listId itemId w)
        = Returned (Some r) ->
        r = e /\ ListId e = listId).
Proof.
  intros w listId itemId e Hs. repeat split.
  - intros Hl. now rewrite (GetListItemAsync_other_list _ _ _ _ Hs Hl).
  - intros Hl.
    now rewrite (GetListItemAsync_hit w listId itemId e (conj Hs Hl)).
  - destruct (ListsRepository.GetListItemAsync listId itemId w)
      as [o w1] eqn:Hg.
    cbn in H. subst o. apply GetListItemAsync_Some in Hg.
    destruct Hg as [Hs' _]. congruence.
  - destruct (ListsRepository.GetListItemAsync listId itemId w)
      as [o w1] eqn:Hg.
    cbn in H. subst o. apply GetListItemAsync_Some in Hg.
    destruct Hg as [Hs' Hl]. congruence.
Qed.

Lemma C6_witness :
  ListId Api.errand <> "A"
  /\ fst (ListsRepository.GetListItemAsync "A" "i3" sample) = Returned None
  /\ fst (ListsRepository.GetListItemAsync "B" "i3" sample)
     = Returned (Some errand).
Proof.
  destruct (C6_GetListItemAsync_scoped_to_list sample "A" "i3" errand eq_refl)
    as [Hother _].
  destruct (C6_GetListItemAsync_scoped_to_list sample "B" "i3" errand eq_refl)
    as [_ [Hsame _]].
  split; [discriminate|]. split.
  - apply Hother. discriminate.
  - apply Hsame. reflexivity.
Defined.

(** ** Deleting an item *)


Section Delete.

Variables (w : World) (listId itemId : string).

Lemma DeleteListItem_hit e :
  existing w listId itemId e ->
  TodoEndpointsExtensions.DeleteListItem listId itemId w
  = (Returned TodoEndpointsExtensions.NoContent,
     record_call (DeleteItem itemId)
       (set_items (filter (fun d => negb (has_id itemId d)) (TodoItemC w))
          (record_call (ReadItem itemId) w))).
Proof.
  intros He. unfold TodoEndpointsExtensions.DeleteListItem, bind.
  rewrite (GetListItemAsync_hit _ _ _ _ He).
  unfold ListsRepository.DeleteListItemAsync, DeleteItemAsync. cbn.
  destruct He as [Hs _]. unfold stored in Hs. rewrite Hs. reflexivity.
Qed.



End Delete.




(** ** Pagination *)

Section Paging.

Context {T : Type}.

Lemma add_each_app (page items : list T) :
  add_each page items = (items ++ page)%list.
Proof.
  unfold add_each. revert items.
  induction page as [|x page IH]; intros items; cbn [fold_left].
  - now rewrite app_nil_r.
  - rewrite IH, <- app_assoc. reflexivity.
Qed.

Lemma read_to_end_app (iterator : FeedIterator T) (items : list T) :
  read_to_end iterator items = (items ++ List.concat iterator)%list.
Proof.
  revert items. induction iterator as [|page rest IH]; intros items; cbn.
  - now rewrite app_nil_r.
  - rewrite IH, add_each_app, <- app_assoc. reflexivity.
Qed.

Lemma concat_pages (fuel n : nat) (q : list T) :
  List.concat (pages fuel n q) = q.
Proof.
  revert n q. induction fuel as [|fuel IH]; intros n q; cbn [pages].
  - cbn. apply app_nil_r.
  - cbv zeta. destruct (List.length q <=? Nat.max 1 n)%nat.
    + cbn. apply app_nil_r.
    + cbn [List.concat]. rewrite IH. apply firstn_skipn.
Qed.

Lemma ToListAsync_page_of (q : IQueryable T) (skip batchSize : option Z)
    (w : World) :
  ListsRepository.ToListAsync q skip batchSize w
  = (Returned (page_of skip batchSize q), w).
Proof.
  unfold ListsRepository.ToListAsync, ToFeedIterator.
  rewrite read_to_end_app, concat_pages. cbn [app].
  unfold page_of, Skip, Take. now destruct skip, batchSize.
Qed.

Lemma page_of_nth_error (q : list T) (s n : Z) (i : nat) :
  nth_error (page_of (Some s) (Some n) q) i
  = if (i <? Z.to_nat n)%nat then nth_error q (Z.to_nat s + i) else None.
Proof.
  unfold page_of. now rewrite nth_error_firstn, nth_error_skipn.
Qed.

End Paging.

(** C7. Pagination skips before it limits. [ToListAsync] returns the whole
    page whatever the size of the pages the feed iterator delivers: with
    skip [s] and limit [n], both non-negative, its [i]-th element is element
    [s + i] of the query result for [i < n] and there is no [n]-th element,
    so it holds positions [s] to [s + n - 1]; without a skip nothing is
    dropped from the front, without a limit nothing is cut off, and without
    both the query result is returned as it is. The three paginated queries
    of the repository return that page of their (filtered) container. *)
Theorem C7_pagination_skips_then_limits :
  forall (T : Type) (q : IQueryable T) (skip batchSize : option Z) (w : World),
    (exists result,
        ListsRepository.ToListAsync q skip batchSize w = (Returned result, w)
        /\ result = page_of skip batchSize q
        /\ (forall s n, skip = Some s -> batchSize = Some n ->
                        0 <= s -> 0 <= n ->
            forall i : nat,
              nth_error result i
              = if (i <? Z.to_nat n)%nat
                then nth_error q (Z.to_nat s + i) else None)
        /\ (forall n, skip = None -> batchSize = Some n ->
                      result = firstn (Z.to_nat n) q)
        /\ (forall s, skip = Some s -> batchSize = None ->
                      result = skipn (Z.to_nat s) q)
        /\ (skip = None -> batchSize = None -> result = q))
    /\ ListsRepository.GetListsAsync skip batchSize w
       = (Returned (page_of skip batchSize (TodoListC w)), w)
    /\ (forall listId,
        ListsRepository.GetListItemsAsync listId skip batchSize w
        = (Returned
             (page_of skip batchSize
                (filter (fun i => String.eqb (ListId i) listId) (TodoItemC w))),
           w))
    /\ (forall listId state,
        ListsRepository.GetListItemsByStateAsync listId state skip batchSize w
        = (Returned
             (page_of skip batchSize
                (filter (fun i => String.eqb (ListId i) listId
                                  && String.eqb (State i) state)
                        (TodoItemC w))),
           w)).
Proof.
  intros T q skip batchSize w. repeat apply conj.
  - exists (page_of skip batchSize q). repeat apply conj.
    + apply ToListAsync_page_of.
    + reflexivity.
    + intros s n -> -> _ _ i. apply page_of_nth_error.
    + now intros n -> ->.
    + now intros s -> ->.
    + now intros -> ->.
  - unfold ListsRepository.GetListsAsync, bind. cbn.
    apply ToListAsync_page_of.
  - intros listId. unfold ListsRepository.GetListItemsAsync, bind. cbn.
    apply ToListAsync_page_of.
  - intros listId state. unfold ListsRepository.GetListItemsByStateAsync, bind.
    cbn. apply ToListAsync_page_of.
Qed.

Lemma C7_witness :
  exists result,
    ListsRepository.ToListAsync [0; 1; 2; 3; 4; 5; 6; 7; 8; 9]
                                (Some 2) (Some 3) sample
    = (Returned result, sample)
    /\ nth_error result 0 = Some 2
    /\ nth_error result 1 = Some 3
    /\ nth_error result 2 = Some 4
    /\ nth_error result 3 = None.
Proof.
  destruct (C7_pagination_skips_then_limits
              Z [0; 1; 2; 3; 4; 5; 6; 7; 8; 9] (Some 2) (Some 3) sample)
    as [[result [Hrun [_ [Hnth _]]]] _].
  exists result. split; [exact Hrun|].
  pose proof (Hnth 2 3 eq_refl eq_refl) as H.
  assert (H0 : 0 <= 2) by lia. assert (H1 : 0 <= 3) by lia.
  specialize (H H0 H1).
  repeat split;
    [apply (H 0%nat)|apply (H 1%nat)|apply (H 2%nat)|apply (H 3%nat)].
Defined.

(** ** The update transition *)

Lemma stored_after_replace (id : string) (r e : TodoItem) (l : list TodoItem) :
  find (has_id id) l = Some e -> Id r = id ->
  find (has_id id) (map (fun d => if has_id id d then r else d) l) = Some r.
Proof.
  intros Hf Hr. induction l as [|d l IH]; [discriminate|].
  cbn [find map] in *. destruct (has_id id d) eqn:Hd.
  - unfold has_id at 1. rewrite Hr, String.eqb_refl. reflexivity.
  - rewrite Hd. auto.
Qed.

(** What the endpoint returns and stores for an item it finds; the reopen
    test and the completion default both take the second reading of the
    clock, the first being the one [UpdatedDate] gets. *)
Lemma UpdateListItem_outcome w listId itemId item e :
  existing w listId itemId e ->
  exists r w',
    TodoEndpointsExtensions.UpdateListItem listId itemId item w
    = (Returned (TodoEndpointsExtensions.Ok r), w')
    /\ stored w' itemId = Some r
    /\ State r
       = (if reopen_rule e item (reading w 1) then "todo" else state item)
    /\ CompletedDate r
       = (if String.eqb (state item) "done"
          then if String.eqb (State e) "done" then completedDate item
               else Some match completedDate item with
                         | Some c => c
                         | None => reading w 1
                         end
          else None)
    /\ DueDate r = dueDate item.
Proof.
  intros He. pose proof He as [Hs Hl]. pose proof (stored_Id _ _ _ Hs) as Hid.
  unfold TodoEndpointsExtensions.UpdateListItem, bind.
  rewrite (GetListItemAsync_hit _ _ _ _ He).
  unfold reopen_rule, reading, TotalHours_ge_1.
  replace (reads w + 1)%nat with (S (reads w)) by lia.
  unfold UtcNow, TodoEndpointsExtensions.completedDate_or_UtcNow,
    ListsRepository.UpdateListItem, ReplaceItemAsync, ret.
  unfold stored in Hs |- *.
  destruct (String.eqb (State e) "done"),
    (String.eqb (state item) "done") eqn:Hreq,
    (dueDate item) as [n|], (DueDate e) as [o|], (completedDate item) as [c|];
    cbn;
    try destruct (n =? o); cbn;
    try destruct (clock w (S (reads w)) <? n); cbn;
    try destruct (TicksPerHour <=? n - o); cbn;
    rewrite ?Hid, Hs; cbn;
    (eexists; eexists; split; [reflexivity|]); cbn;
    (split; [now apply stored_after_replace with (e := e)|]);
    repeat split; auto; symmetry; now apply String.eqb_eq.
Qed.

(** The same for [UpdateListItemWithStateLogic], which reads the clock
    once. *)
Lemma UpdateListItemWithStateLogic_outcome w itemId e newState newDueDate
    newCompletedDate :
  stored w itemId = Some e ->
  exists r w',
    ListsRepository.UpdateListItemWithStateLogic
      e newState newDueDate newCompletedDate w
    = (Returned r, w')
    /\ stored w' itemId = Some r
    /\ State r
       = (if lax_reopen_rule e newState newDueDate (reading w 0)
          then "todo" else newState)
    /\ CompletedDate r
       = (if lax_reopen_rule e newState newDueDate (reading w 0) then None
          else if String.eqb newState "done"
          then if String.eqb (State e) "done" then newCompletedDate
               else Some match newCompletedDate with
                         | Some c => c
                         | None => reading w 0
                         end
          else None)
    /\ DueDate r = newDueDate.
Proof.
  intros Hs. pose proof (stored_Id _ _ _ Hs) as Hid.
  unfold ListsRepository.UpdateListItemWithStateLogic, bind.
  unfold lax_reopen_rule, reading.
  replace (reads w + 0)%nat with (reads w) by lia.
  unfold UtcNow, ReplaceItemAsync, ret.
  unfold stored in Hs |- *.
  destruct (String.eqb (State e) "done"),
    (String.eqb newState "done") eqn:Hreq,
    newDueDate as [n|], newCompletedDate as [c|];
    cbn;
    try destruct (clock w (reads w) <? n); cbn;
    rewrite ?Hid, Hs; cbn;
    (eexists; eexists; split; [reflexivity|]); cbn;
    (split; [now apply stored_after_replace with (e := e)|]);
    repeat split; auto; symmetry; now apply String.eqb_eq.
Qed.

Lemma reopen_rule_needs_done e item now :
  State e <> "done" -> reopen_rule e item now = false.
Proof.
  intros H. unfold reopen_rule. apply String.eqb_neq in H. now rewrite H.
Qed.

Lemma reopen_rule_needs_prior_due e item now :
  DueDate e = None -> reopen_rule e item now = false.
Proof.
  intros H. unfold reopen_rule. rewrite H.
  destruct (dueDate item); now rewrite andb_false_r.
Qed.

(** When the endpoint's reopen rule fires the item goes back to todo, with
    whatever completed date the request carries. *)
Lemma reopen_moves_back_to_todo w listId itemId item e :
  existing w listId itemId e ->
  reopen_rule e item (reading w 1) = true ->
  exists r w',
    TodoEndpointsExtensions.UpdateListItem listId itemId item w
    = (Returned (TodoEndpointsExtensions.Ok r), w')
    /\ State r = "todo" /\ CompletedDate r = completedDate item.
Proof.
  intros He Hre.
  destruct (UpdateListItem_outcome w listId itemId item e He)
    as (r & w' & Hrun & _ & HS & HC & _).
  exists r, w'. rewrite HS, HC, Hre. repeat split; auto.
  unfold reopen_rule in Hre.
  destruct (String.eqb (State e) "done"), (String.eqb (state item) "done");
    try discriminate; reflexivity.
Qed.

(** A done item whose due date is not moved far enough, or not into the
    future, stays done. *)
Lemma small_edit_stays_done w listId itemId item e :
  existing w listId itemId e ->
  State e = "done" -> state item = "done" ->
  reopen_rule e item (reading w 1) = false ->
  exists r w',
    TodoEndpointsExtensions.UpdateListItem listId itemId item w
    = (Returned (TodoEndpointsExtensions.Ok r), w')
    /\ State r = "done".
Proof.
  intros He _ Hreq Hre.
  destruct (UpdateListItem_outcome w listId itemId item e He)
    as (r & w' & Hrun & _ & HS & _).
  exists r, w'. rewrite HS, Hre. auto.
Qed.

(** C1, amended. Outside the reopen transition the completed date is set
    exactly when the resulting state is done, provided a request that keeps a
    done item done carries a completed date (without one the item stays done
    with a null completed date). This holds for [UpdateListItem] whenever its
    reopen rule does not fire, and for [UpdateListItemWithStateLogic], whose
    reopen transition moreover leaves the state todo and the completed date
    null. *)
Theorem C1_completed_iff_done_outside_reopen :
  forall (w : World) (listId itemId : string) (item : CreateUpdateTodoItem)
         (e : TodoItem),
    existing w listId itemId e ->
    (reopen_rule e item (reading w 1) = false ->
     (State e = "done" -> state item = "done" -> completedDate item <> None) ->
     exists r w',
       TodoEndpointsExtensions.UpdateListItem listId itemId item w
       = (Returned (TodoEndpointsExtensions.Ok r), w')
       /\ completed_iff_done r)
    /\ ((State e = "done" -> state item = "done" ->
         lax_reopen_rule e (state item) (dueDate item) (reading w 0) = false ->
         completedDate item <> None) ->
        exists r w',
          ListsRepository.UpdateListItemWithStateLogic
            e (state item) (dueDate item) (completedDate item) w
          = (Returned r, w')
          /\ completed_iff_done r
          /\ (lax_reopen_rule e (state item) (dueDate item) (reading w 0)
              = true ->
              State r = "todo" /\ CompletedDate r = None)).
Proof.
  intros w listId itemId item e He. split.
  - intros Hre Hsup.
    destruct (UpdateListItem_outcome w listId itemId item e He)
      as (r & w' & Hrun & _ & HS & HC & _).
    exists r, w'. split; [exact Hrun|].
    unfold completed_iff_done. rewrite HS, HC, Hre.
    destruct (String.eqb (state item) "done") eqn:Hreq.
    + apply String.eqb_eq in Hreq.
      destruct (String.eqb (State e) "done") eqn:Hold.
      * apply String.eqb_eq in Hold. split; auto.
      * split; [auto|discriminate].
    + apply String.eqb_neq in Hreq. split; [now intros []|contradiction].
  - intros Hsup. destruct He as [Hs _].
    destruct (UpdateListItemWithStateLogic_outcome
                w itemId e (state item) (dueDate item) (completedDate item) Hs)
      as (r & w' & Hrun & _ & HS & HC & _).
    exists r, w'. split; [exact Hrun|].
    unfold completed_iff_done. rewrite HS, HC.
    destruct (lax_reopen_rule e (state item) (dueDate item) (reading w 0))
      eqn:Hre.
    + repeat split; try discriminate; now intros [].
    + split; [|discriminate].
      destruct (String.eqb (state item) "done") eqn:Hreq.
      * apply String.eqb_eq in Hreq.
        destruct (String.eqb (State e) "done") eqn:Hold.
        -- apply String.eqb_eq in Hold. split; auto.
        -- split; [auto|discriminate].
      * apply String.eqb_neq in Hreq. split; [now intros []|contradiction].
Qed.

Lemma C1_witness :
  (exists r w',
      TodoEndpointsExtensions.UpdateListItem "A" "i1" keep_done sample
      = (Returned (TodoEndpointsExtensions.Ok r), w')
      /\ completed_iff_done r)
  /\ (exists r w',
         ListsRepository.UpdateListItemWithStateLogic
           report "done" (Some (hour 10)) (Some (hour 9)) sample
         = (Returned r, w')
         /\ completed_iff_done r
         /\ (lax_reopen_rule report "done" (Some (hour 10)) (reading sample 0)
             = true ->
             State r = "todo" /\ CompletedDate r = None)).
Proof.
  destruct (C1_completed_iff_done_outside_reopen
              sample "A" "i1" keep_done report (conj eq_refl eq_refl))
    as [Hendpoint Hlogic].
  split.
  - apply Hendpoint; [reflexivity|]. intros _ _. discriminate.
  - apply Hlogic. intros _ _ _. discriminate.
Defined.

(** C1 as stated fails: a request that keeps the report done and carries no
    completed date is not a reopen transition, and leaves the item done with
    a null completed date. [UpdateListItemWithStateLogic] does the same on an
    item whose requested due date is not in the future. *)
Lemma C1_counterexample :
  reopen_rule report keep_done_blank (reading sample 1) = false
  /\ (exists r w',
         TodoEndpointsExtensions.UpdateListItem "A" "i1" keep_done_blank sample
         = (Returned (TodoEndpointsExtensions.Ok r), w')
         /\ State r = "done" /\ CompletedDate r = None
         /\ ~ completed_iff_done r)
  /\ (exists r w',
         ListsRepository.UpdateListItemWithStateLogic
           report "done" (Some (hour 4)) None sample
         = (Returned r, w')
         /\ State r = "done" /\ CompletedDate r = None
         /\ ~ completed_iff_done r).
Proof.
  split; [reflexivity|]. split.
  - cbv -[completed_iff_done]. eexists; eexists. split; [reflexivity|].
    split; [reflexivity|]. split; [reflexivity|].
    intros [_ H]. now apply (H eq_refl).
  - cbv -[completed_iff_done]. eexists; eexists. split; [reflexivity|].
    split; [reflexivity|]. split; [reflexivity|].
    intros [_ H]. now apply (H eq_refl).
Qed.

(** C2. The two entry points differ in how strictly they reopen. On a stored
    item that is done, [UpdateListItemWithStateLogic] with requested state
    done and any requested due date strictly after its reading of the clock
    returns and stores the item with state todo and a null completed date:
    neither a changed due date nor an hour's increase is asked for. So the
    entry points disagree: on the sample store, the request that keeps the
    report done with its due date untouched leaves it done through
    [UpdateListItem] and todo through [UpdateListItemWithStateLogic]. *)
Theorem C2_entry_points_differ_in_strictness :
  (forall (w : World) (itemId : string) (e : TodoItem) (d : DateTimeOffset)
          (newCompletedDate : option DateTimeOffset),
      stored w itemId = Some e ->
      State e = "done" ->
      reading w 0 < d ->
      exists r w',
        ListsRepository.UpdateListItemWithStateLogic
          e "done" (Some d) newCompletedDate w
        = (Returned r, w')
        /\ stored w' itemId = Some r
        /\ State r = "todo" /\ CompletedDate r = None)
  /\ (exists (w : World) (listId itemId : string) (item : CreateUpdateTodoItem)
             (e r1 r2 : TodoItem) (w1 w2 : World),
         existing w listId itemId e
         /\ State e = "done" /\ state item = "done"
         /\ dueDate item = DueDate e
         /\ TodoEndpointsExtensions.UpdateListItem listId itemId item w
            = (Returned (TodoEndpointsExtensions.Ok r1), w1)
         /\ ListsRepository.UpdateListItemWithStateLogic
              e (state item) (dueDate item) (completedDate item) w
            = (Returned r2, w2)
         /\ State r1 = "done" /\ State r2 = "todo" /\ r1 <> r2).
Proof.
  split.
  - intros w itemId e d newCompletedDate Hs Hdone Hlt.
    destruct (UpdateListItemWithStateLogic_outcome
                w itemId e "done" (Some d) newCompletedDate Hs)
      as (r & w' & Hrun & Hst & HS & HC & _).
    assert (Hre : lax_reopen_rule e "done" (Some d) (reading w 0) = true).
    { unfold lax_reopen_rule. rewrite Hdone. cbn. now apply Z.ltb_lt. }
    rewrite Hre in HS, HC. now exists r, w'.
  - exists sample, "A", "i1", keep_done, report.
    cbv. do 4 eexists.
    split; [split; reflexivity|].
    do 3 (split; [reflexivity|]).
    split; [reflexivity|]. split; [reflexivity|].
    split; [reflexivity|]. split; [reflexivity|]. discriminate.
Qed.

Lemma C2_witness :
  exists r w',
    ListsRepository.UpdateListItemWithStateLogic
      report "done" (Some (hour 10)) (Some (hour 9)) sample
    = (Returned r, w')
    /\ stored w' "i1" = Some r
    /\ State r = "todo" /\ CompletedDate r = None.
Proof.
  destruct C2_entry_points_differ_in_strictness as [Hlax _].
  apply (Hlax sample "i1" report (hour 10) (Some (hour 9)));
    [reflexivity|reflexivity|unfold reading, hour, TicksPerHour; cbn; lia].
Defined.

(** C3, at the failing input. The report is done and due at hour 10; at hour
    5 the request keeps it done, moves its due date to hour 12 and carries
    the completed date it already has. The reopen rule fires and the endpoint
    answers with state todo, but with the requested completed date instead
    of null: the steady-state branch after the reopen block overwrites the
    null the block has just set. [UpdateListItemWithStateLogic] on the same
    input leaves the completed date null. *)
Theorem C3_reopen_keeps_requested_completedDate :
  reopen_rule report postpone (reading sample 1) = true
  /\ (exists r w',
         TodoEndpointsExtensions.UpdateListItem "A" "i1" postpone sample
         = (Returned (TodoEndpointsExtensions.Ok r), w')
         /\ State r = "todo"
         /\ CompletedDate r = Some (hour 9)
         /\ CompletedDate r <> None)
  /\ (exists r w',
         ListsRepository.UpdateListItemWithStateLogic
           report (state postpone) (dueDate postpone) (completedDate postpone)
           sample
         = (Returned r, w')
         /\ State r = "todo" /\ CompletedDate r = None).
Proof.
  split; [reflexivity|]. split.
  - cbv. eexists; eexists. split; [reflexivity|].
    split; [reflexivity|]. split; [reflexivity|]. discriminate.
  - cbv. eexists; eexists. split; [reflexivity|]. split; reflexivity.
Qed.

(** C4. The completion rule of [UpdateListItem]: for a stored item that is
    not done and a request with state done, the reopen rule does not fire,
    and the endpoint returns and stores the item with state done, with the
    requested completed date when there is one and otherwise the reading of
    the clock it takes then, and with the requested due date. *)
Theorem C4_completion_rule :
  forall (w : World) (listId itemId : string) (item : CreateUpdateTodoItem)
         (e : TodoItem),
    existing w listId itemId e ->
    State e <> "done" ->
    state item = "done" ->
    exists r w',
      TodoEndpointsExtensions.UpdateListItem listId itemId item w
      = (Returned (TodoEndpointsExtensions.Ok r), w')
      /\ stored w' itemId = Some r
      /\ reopen_rule e item (reading w 1) = false
      /\ State r = "done"
      /\ CompletedDate r
         = Some match completedDate item with
                | Some c => c
                | None => reading w 1
                end
      /\ DueDate r = dueDate item.
Proof.
  intros w listId itemId item e He Hold Hreq.
  destruct (UpdateListItem_outcome w listId itemId item e He)
    as (r & w' & Hrun & Hst & HS & HC & HD).
  pose proof (reopen_rule_needs_done e item (reading w 1) Hold) as Hre.
  rewrite Hre in HS. rewrite Hreq in HS, HC.
  apply String.eqb_neq in Hold. rewrite Hold in HC. cbn in HC.
  now exists r, w'.
Qed.

Lemma C4_witness :
  exists r w',
    TodoEndpointsExtensions.UpdateListItem "A" "i2" finish sample
    = (Returned (TodoEndpointsExtensions.Ok r), w')
    /\ stored w' "i2" = Some r
    /\ reopen_rule slides finish (reading sample 1) = false
    /\ State r = "done"
    /\ CompletedDate r = Some (hour 5)
    /\ DueDate r = Some (hour 30).
Proof.
  apply (C4_completion_rule sample "A" "i2" finish slides).
  - split; reflexivity.
  - discriminate.
  - reflexivity.
Defined.

(** C8. Through [UpdateListItem] a done item without a stored due date never
    reopens: whatever due date a request with state done carries, the reopen
    rule does not fire and the item is returned and stored with state
    done. *)
Theorem C8_done_without_due_date_never_reopens :
  forall (w : World) (listId itemId : string) (item : CreateUpdateTodoItem)
         (e : TodoItem),
    existing w listId itemId e ->
    State e = "done" ->
    DueDate e = None ->
    state item = "done" ->
    exists r w',
      TodoEndpointsExtensions.UpdateListItem listId itemId item w
      = (Returned (TodoEndpointsExtensions.Ok r), w')
      /\ stored w' itemId = Some r
      /\ reopen_rule e item (reading w 1) = false
      /\ State r = "done".
Proof.
  intros w listId itemId item e He _ Hdue Hreq.
  destruct (UpdateListItem_outcome w listId itemId item e He)
    as (r & w' & Hrun & Hst & HS & _).
  pose proof (reopen_rule_needs_prior_due e item (reading w 1) Hdue) as Hre.
  rewrite Hre in HS. rewrite Hreq in HS.
  now exists r, w'.
Qed.

Lemma C8_witness :
  reading sample 1 + TicksPerHour < hour 100
  /\ exists r w',
      TodoEndpointsExtensions.UpdateListItem "B" "i3" schedule sample
      = (Returned (TodoEndpointsExtensions.Ok r), w')
      /\ stored w' "i3" = Some r
      /\ reopen_rule errand schedule (reading sample 1) = false
      /\ State r = "done".
Proof.
  split; [unfold reading, hour, TicksPerHour; cbn; lia|].
  apply (C8_done_without_due_date_never_reopens sample "B" "i3" schedule errand).
  - split; reflexivity.
  - reflexivity.
  - reflexivity.
  - reflexivity.
Defined.

(** ** More on the item endpoints *)

Lemma stored_elsewhere_after_replace (id id' : string) (r : TodoItem)
    (l : list TodoItem) :
  id' <> id -> Id r = id ->
  find (has_id id') (map (fun d => if has_id id d then r else d) l)
  = find (has_id id') l.
Proof.
  intros Hne Hr. induction l as [|d l IH]; [reflexivity|].
  cbn [find map]. destruct (has_id id d) eqn:Hd.
  - assert (Hr' : has_id id' r = false).
    { unfold has_id. rewrite Hr. apply String.eqb_neq. congruence. }
    assert (Hd' : has_id id' d = false).
    { unfold has_id in *. apply String.eqb_eq in Hd. rewrite Hd.
      apply String.eqb_neq. congruence. }
    now rewrite Hr', Hd'.
  - destruct (has_id id' d); [reflexivity|exact IH].
Qed.

Lemma stored_elsewhere_after_delete (id id' : string) (l : list TodoItem) :
  id' <> id ->
  find (has_id id') (filter (fun d => negb (has_id id d)) l)
  = find (has_id id') l.
Proof.
  intros Hne. induction l as [|d l IH]; [reflexivity|].
  cbn [find filter]. destruct (has_id id d) eqn:Hd; cbn [negb].
  - assert (Hd' : has_id id' d = false).
    { unfold has_id in *. apply String.eqb_eq in Hd. rewrite Hd.
      apply String.eqb_neq. congruence. }
    now rewrite Hd'.
  - cbn [find]. destruct (has_id id' d); [reflexivity|exact IH].
Qed.

Lemma TodoItem_eq (a b : TodoItem) :
  Id a = Id b -> ListId a = ListId b -> Name a = Name b ->
  Description a = Description b -> State a = State b ->
  DueDate a = DueDate b -> CompletedDate a = CompletedDate b ->
  CreatedDate a = CreatedDate b -> UpdatedDate a = UpdatedDate b ->
  a = b.
Proof. destruct a, b; cbn; congruence. Qed.

(** The run of the endpoint on an item it finds, field by field and
    container by container. *)
Lemma UpdateListItem_run w listId itemId item e :
  existing w listId itemId e ->
  exists r w',
    TodoEndpointsExtensions.UpdateListItem listId itemId item w
    = (Returned (TodoEndpointsExtensions.Ok r), w')
    /\ r = mkTodoItem itemId listId (name item) (description item) (State r)
                      (dueDate item) (CompletedDate r) (CreatedDate e)
                      (Some (reading w 0))
    /\ TodoItemC w'
       = map (fun d => if has_id itemId d then r else d) (TodoItemC w)
    /\ TodoListC w' = TodoListC w
    /\ calls w' = (calls w ++ [ReadItem itemId; ReplaceItem itemId])%list
    /\ clock w' = clock w
    /\ (reads w < reads w' <= reads w + 2)%nat.
Proof.
  intros He. pose proof He as [Hs Hl]. pose proof (stored_Id _ _ _ Hs) as Hid.
  unfold TodoEndpointsExtensions.UpdateListItem, bind.
  rewrite (GetListItemAsync_hit _ _ _ _ He).
  unfold reading, TotalHours_ge_1.
  replace (reads w + 0)%nat with (reads w) by lia.
  unfold UtcNow, TodoEndpointsExtensions.completedDate_or_UtcNow,
    ListsRepository.UpdateListItem, ReplaceItemAsync, ret.
  unfold stored in Hs.
  repeat (cbn;
          match goal with
          | |- context [String.eqb (State e) "done"] =>
              destruct (String.eqb (State e) "done")
          | |- context [String.eqb (state item) "done"] =>
              destruct (String.eqb (state item) "done")
          | |- context [match dueDate item with _ => _ end] =>
              destruct (dueDate item)
          | |- context [match DueDate e with _ => _ end] =>
              destruct (DueDate e)
          | |- context [match completedDate item with _ => _ end] =>
              destruct (completedDate item)
          | |- context [if negb (?a =? ?b) then _ else _] =>
              destruct (a =? b)
          | |- context [if (?a <? ?b) && _ then _ else _] =>
              destruct (a <? b)
          | |- context [if TicksPerHour <=? ?a then _ else _] =>
              destruct (TicksPerHour <=? a)
          end);
    cbn; rewrite ?Hid, Hs; cbn;
    (eexists; eexists; split; [reflexivity|]); cbn;
    rewrite <- ?app_assoc; cbn;
    (split; [apply TodoItem_eq; cbn; auto|]);
    repeat split; auto; lia.
Qed.

(** X1. An update through [UpdateListItem] never moves or renames the
    document: the item returned keeps the id, the list and the creation date
    of the stored item, takes name, description and due date from the
    request, is stamped with the first reading of the clock, and is what a
    lookup scoped to the same list returns afterwards. *)
Theorem X1_UpdateListItem_keeps_identity_and_reads_back :
  forall (w : World) (listId itemId : string) (item : CreateUpdateTodoItem)
         (e : TodoItem),
    existing w listId itemId e ->
    exists r w',
      TodoEndpointsExtensions.UpdateListItem listId itemId item w
      = (Returned (TodoEndpointsExtensions.Ok r), w')
      /\ Id r = itemId /\ ListId r = listId
      /\ CreatedDate r = CreatedDate e
      /\ Name r = name item /\ Description r = description item
      /\ DueDate r = dueDate item
      /\ UpdatedDate r = Some (reading w 0)
      /\ fst (ListsRepository.GetListItemAsync listId itemId w')
         = Returned (Some r).
Proof.
  intros w listId itemId item e He.
  destruct (UpdateListItem_run w listId itemId item e He)
    as (r & w' & Hrun & Hr & Hitems & _).
  exists r, w'. split; [exact Hrun|].
  assert (HId : Id r = itemId) by (rewrite Hr; reflexivity).
  assert (HL : ListId r = listId) by (rewrite Hr; reflexivity).
  repeat split; try (rewrite Hr; reflexivity).
  rewrite (GetListItemAsync_hit w' listId itemId r); [reflexivity|].
  split; [|exact HL]. unfold stored. rewrite Hitems.
  destruct He as [Hs _]. now apply stored_after_replace with (e := e).
Qed.

Lemma X1_witness :
  exists r w',
    TodoEndpointsExtensions.UpdateListItem "A" "i2" resume sample
    = (Returned (TodoEndpointsExtensions.Ok r), w')
    /\ Id r = "i2" /\ ListId r = "A"
    /\ CreatedDate r = Some (hour 2)
    /\ Name r = "slides" /\ Description r = Some "again"
    /\ DueDate r = None
    /\ UpdatedDate r = Some (hour 5)
    /\ fst (ListsRepository.GetListItemAsync "A" "i2" w') = Returned (Some r).
Proof.
  apply (X1_UpdateListItem_keeps_identity_and_reads_back
           sample "A" "i2" resume slides).
  split; reflexivity.
Defined.

(** X2. An update through [UpdateListItem] touches one document only: every
    document stored under another id is the same afterwards, the item
    container has as many documents as before, the list container is
    untouched, and the container received one read and then one replace. *)
Theorem X2_UpdateListItem_touches_one_document :
  forall (w : World) (listId itemId : string) (item : CreateUpdateTodoItem)
         (e : TodoItem),
    existing w listId itemId e ->
    exists r w',
      TodoEndpointsExtensions.UpdateListItem listId itemId item w
      = (Returned (TodoEndpointsExtensions.Ok r), w')
      /\ (forall id', id' <> itemId -> stored w' id' = stored w id')
      /\ List.length (TodoItemC w') = List.length (TodoItemC w)
      /\ TodoListC w' = TodoListC w
      /\ calls_since w w' = [ReadItem itemId; ReplaceItem itemId].
Proof.
  intros w listId itemId item e He.
  destruct (UpdateListItem_run w listId itemId item e He)
    as (r & w' & Hrun & Hr & Hitems & Hlists & Hcalls & _).
  exists r, w'. split; [exact Hrun|]. repeat split.
  - intros id' Hne. unfold stored. rewrite Hitems.
    apply stored_elsewhere_after_replace; [exact Hne|].
    rewrite Hr. reflexivity.
  - rewrite Hitems. apply length_map.
  - exact Hlists.
  - now apply calls_since_app.
Qed.

Lemma X2_witness :
  exists r w',
    TodoEndpointsExtensions.UpdateListItem "A" "i2" resume sample
    = (Returned (TodoEndpointsExtensions.Ok r), w')
    /\ (forall id', id' <> "i2" -> stored w' id' = stored sample id')
    /\ List.length (TodoItemC w') = List.length (TodoItemC sample)
    /\ TodoListC w' = TodoListC sample
    /\ calls_since sample w' = [ReadItem "i2"; ReplaceItem "i2"].
Proof.
  apply (X2_UpdateListItem_touches_one_document sample "A" "i2" resume slides).
  split; reflexivity.
Defined.

(** X3. [UpdateListItem] writes nothing unless the scoped lookup finds the
    item. For a document that belongs to another list it returns NotFound
    without reading the clock or changing either container; when no
    document has the id the read throws and nothing changes; and whenever it
    returns Ok, the item was stored under that id in that list. *)
Theorem X3_UpdateListItem_writes_only_what_it_finds :
  forall (w : World) (listId itemId : string) (item : CreateUpdateTodoItem),
    (forall e,
        stored w itemId = Some e -> ListId e <> listId ->
        exists w',
          TodoEndpointsExtensions.UpdateListItem listId itemId item w
          = (Returned TodoEndpointsExtensions.NotFound, w')
          /\ TodoItemC w' = TodoItemC w /\ TodoListC w' = TodoListC w
          /\ reads w' = reads w
          /\ calls_since w w' = [ReadItem itemId])
    /\ (stored w itemId = None ->
        exists w',
          TodoEndpointsExtensions.UpdateListItem listId itemId item w
          = (Faulted (CosmosException 404), w')
          /\ TodoItemC w' = TodoItemC w /\ TodoListC w' = TodoListC w)
    /\ (forall r w',
        TodoEndpointsExtensions.UpdateListItem listId itemId item w
        = (Returned (TodoEndpointsExtensions.Ok r), w') ->
        exists e, existing w listId itemId e).
Proof.
  intros w listId itemId item.
  assert (Hread : calls_since w (record_call (ReadItem itemId) w)
                  = [ReadItem itemId]) by (now apply calls_since_app).
  repeat apply conj.
  - intros e Hs Hl. unfold TodoEndpointsExtensions.UpdateListItem, bind.
    rewrite (GetListItemAsync_other_list _ _ _ _ Hs Hl).
    eexists. repeat split; auto.
  - intros Hs. unfold TodoEndpointsExtensions.UpdateListItem, bind.
    rewrite (GetListItemAsync_absent _ _ _ Hs).
    eexists. repeat split; auto.
  - intros r w' Hrun.
    destruct (GetListItemAsync_cases w listId itemId)
      as [He|[[e [Hs Hl]]|Hs]]; [exact He| |];
      unfold TodoEndpointsExtensions.UpdateListItem, bind in Hrun.
    + rewrite (GetListItemAsync_other_list _ _ _ _ Hs Hl) in Hrun.
      discriminate.
    + rewrite (GetListItemAsync_absent _ _ _ Hs) in Hrun. discriminate.
Qed.

Lemma X3_witness :
  (exists w',
      TodoEndpointsExtensions.UpdateListItem "A" "i3" schedule sample
      = (Returned TodoEndpointsExtensions.NotFound, w')
      /\ TodoItemC w' = TodoItemC sample /\ TodoListC w' = TodoListC sample
      /\ reads w' = reads sample
      /\ calls_since sample w' = [ReadItem "i3"])
  /\ (exists w',
         TodoEndpointsExtensions.UpdateListItem "A" "i9" schedule sample
         = (Faulted (CosmosException 404), w')
         /\ TodoItemC w' = TodoItemC sample /\ TodoListC w' = TodoListC sample).
Proof.
  split.
  - destruct (X3_UpdateListItem_writes_only_what_it_finds
                sample "A" "i3" schedule) as [H _].
    apply (H errand); [reflexivity|discriminate].
  - destruct (X3_UpdateListItem_writes_only_what_it_finds
                sample "A" "i9" schedule) as [_ [H _]].
    apply H. reflexivity.
Defined.

Lemma reopen_rule_needs_done_request e item now :
  state item <> "done" -> reopen_rule e item now = false.
Proof.
  intros H. unfold reopen_rule. apply String.eqb_neq in H. rewrite H.
  now rewrite andb_false_r.
Qed.

Lemma lax_reopen_rule_needs_done_request e newState newDueDate now :
  newState <> "done" -> lax_reopen_rule e newState newDueDate now = false.
Proof.
  intros H. unfold lax_reopen_rule. apply String.eqb_neq in H. rewrite H.
  now rewrite andb_false_r.
Qed.

(** X4. Leaving done: for a request whose state is not done, both entry
    points return the item in the requested state with a null completed
    date, whatever the state and completed date of the stored item and
    whatever completed date the request carries. *)
Theorem X4_request_not_done_clears_completedDate :
  forall (w : World) (listId itemId : string) (item : CreateUpdateTodoItem)
         (e : TodoItem),
    existing w listId itemId e ->
    state item <> "done" ->
    (exists r w',
        TodoEndpointsExtensions.UpdateListItem listId itemId item w
        = (Returned (TodoEndpointsExtensions.Ok r), w')
        /\ State r = state item /\ CompletedDate r = None)
    /\ (exists r w',
           ListsRepository.UpdateListItemWithStateLogic
             e (state item) (dueDate item) (completedDate item) w
           = (Returned r, w')
           /\ State r = state item /\ CompletedDate r = None).
Proof.
  intros w listId itemId item e He Hreq. split.
  - destruct (UpdateListItem_outcome w listId itemId item e He)
      as (r & w' & Hrun & _ & HS & HC & _).
    rewrite (reopen_rule_needs_done_request _ _ _ Hreq) in HS.
    apply String.eqb_neq in Hreq. rewrite Hreq in HC.
    now exists r, w'.
  - destruct He as [Hs _].
    destruct (UpdateListItemWithStateLogic_outcome
                w itemId e (state item) (dueDate item) (completedDate item) Hs)
      as (r & w' & Hrun & _ & HS & HC & _).
    rewrite (lax_reopen_rule_needs_done_request _ _ _ _ Hreq) in HS, HC.
    apply String.eqb_neq in Hreq. rewrite Hreq in HC.
    now exists r, w'.
Qed.

Lemma X4_witness :
  completedDate resume <> None
  /\ (exists r w',
         TodoEndpointsExtensions.UpdateListItem "A" "i1" resume sample
         = (Returned (TodoEndpointsExtensions.Ok r), w')
         /\ State r = "todo" /\ CompletedDate r = None)
  /\ (exists r w',
         ListsRepository.UpdateListItemWithStateLogic
           report "todo" None (Some (hour 3)) sample
         = (Returned r, w')
         /\ State r = "todo" /\ CompletedDate r = None).
Proof.
  split; [discriminate|].
  apply (X4_request_not_done_clears_completedDate
           sample "A" "i1" resume report).
  - split; reflexivity.
  - discriminate.
Defined.

(** X5. The endpoint's reopen rule is the stricter one: if the clock does
    not run backwards between the two readings and [UpdateListItem] answers
    a request with state done by moving the item back to todo, then
    [UpdateListItemWithStateLogic] on the same stored item and request moves
    it back to todo as well, with a null completed date. *)
Theorem X5_endpoint_reopen_implies_state_logic_reopen :
  forall (w : World) (listId itemId : string) (item : CreateUpdateTodoItem)
         (e r1 : TodoItem) (w1 : World),
    existing w listId itemId e ->
    state item = "done" ->
    reading w 0 <= reading w 1 ->
    TodoEndpointsExtensions.UpdateListItem listId itemId item w
    = (Returned (TodoEndpointsExtensions.Ok r1), w1) ->
    State r1 = "todo" ->
    exists r2 w2,
      ListsRepository.UpdateListItemWithStateLogic
        e (state item) (dueDate item) (completedDate item) w
      = (Returned r2, w2)
      /\ State r2 = "todo" /\ CompletedDate r2 = None.
Proof.
  intros w listId itemId item e r1 w1 He Hreq Hclock Hrun Htodo.
  destruct (UpdateListItem_outcome w listId itemId item e He)
    as (r & w' & Hrun' & _ & HS & _).
  rewrite Hrun in Hrun'. injection Hrun' as <- <-.
  destruct (reopen_rule e item (reading w 1)) eqn:Hre;
    [|rewrite HS, Hreq in Htodo; discriminate].
  assert (Hlax : lax_reopen_rule e (state item) (dueDate item) (reading w 0)
                 = true).
  { unfold reopen_rule in Hre. unfold lax_reopen_rule.
    destruct (String.eqb (State e) "done"), (String.eqb (state item) "done"),
      (dueDate item) as [n|], (DueDate e) as [o|]; try discriminate.
    cbn in *. apply andb_prop in Hre. destruct Hre as [Hre _].
    apply andb_prop in Hre. destruct Hre as [_ Hlt].
    apply Z.ltb_lt in Hlt. apply Z.ltb_lt. lia. }
  destruct He as [Hs _].
  destruct (UpdateListItemWithStateLogic_outcome
              w itemId e (state item) (dueDate item) (completedDate item) Hs)
    as (r2 & w2 & Hrun2 & _ & HS2 & HC2 & _).
  rewrite Hlax in HS2, HC2. now exists r2, w2.
Qed.

Lemma X5_witness :
  exists r2 w2,
    ListsRepository.UpdateListItemWithStateLogic
      report (state postpone) (dueDate postpone) (completedDate postpone)
      sample
    = (Returned r2, w2)
    /\ State r2 = "todo" /\ CompletedDate r2 = None.
Proof.
  eapply (X5_endpoint_reopen_implies_state_logic_reopen
            sample "A" "i1" postpone report).
  - split; reflexivity.
  - reflexivity.
  - unfold reading. cbn. lia.
  - cbv. reflexivity.
  - reflexivity.
Defined.

(** X6. Deleting through [DeleteListItem] removes that document and no
    other: every document stored under another id is still stored, what is
    left in the container was there before and has another id, and the list
    container is untouched. *)
Theorem X6_DeleteListItem_removes_one_document :
  forall (w : World) (listId itemId : string) (e : TodoItem),
    existing w listId itemId e ->
    exists w',
      TodoEndpointsExtensions.DeleteListItem listId itemId w
      = (Returned TodoEndpointsExtensions.NoContent, w')
      /\ (forall id', id' <> itemId -> stored w' id' = stored w id')
      /\ (forall d, In d (TodoItemC w') <->
                    In d (TodoItemC w) /\ Id d <> itemId)
      /\ TodoListC w' = TodoListC w.
Proof.
  intros w listId itemId e He.
  rewrite (DeleteListItem_hit _ _ _ _ He). eexists. split; [reflexivity|].
  cbn. repeat split.
  - intros id' Hne. unfold stored. cbn.
    now apply stored_elsewhere_after_delete.
  - apply filter_In in H. tauto.
  - apply filter_In in H. destruct H as [_ H].
    unfold has_id in H. intros Heq. apply String.eqb_eq in Heq.
    rewrite Heq in H. discriminate.
  - intros [Hin Hne]. apply filter_In. split; [exact Hin|].
    unfold has_id. apply String.eqb_neq in Hne. now rewrite Hne.
Qed.

Lemma X6_witness :
  exists w',
    TodoEndpointsExtensions.DeleteListItem "A" "i1" sample
    = (Returned TodoEndpointsExtensions.NoContent, w')
    /\ (forall id', id' <> "i1" -> stored w' id' = stored sample id')
    /\ (forall d, In d (TodoItemC w') <->
                  In d (TodoItemC sample) /\ Id d <> "i1")
    /\ TodoListC w' = TodoListC sample.
Proof.
  apply (X6_DeleteListItem_removes_one_document sample "A" "i1" report).
  split; reflexivity.
Defined.

(** ** More on pagination and the queries *)

Lemma firstn_add_skipn {T : Type} (n m : nat) (l : list T) :
  (firstn n l ++ firstn m (skipn n l))%list = firstn (n + m) l.
Proof.
  revert l. induction n as [|n IH]; intros l; [reflexivity|].
  destruct l as [|x l]; cbn.
  - now rewrite firstn_nil.
  - now rewrite IH.
Qed.

(** X7. Pages tile the result. For a non-negative skip [s] and limits [n]
    and [m], the page at [s] of size [n] followed by the page at [s + n] of
    size [m] is the page at [s] of size [n + m]: paging through a query
    neither repeats nor loses a document. A page holds
    [min n (length q - s)] documents, so never more than the limit, and none
    when the skip reaches the end. *)
Theorem X7_pages_tile_the_result :
  forall (T : Type) (q : IQueryable T) (s n m : Z) (w : World),
    0 <= s -> 0 <= n -> 0 <= m ->
    exists p1 p2 p12,
      ListsRepository.ToListAsync q (Some s) (Some n) w = (Returned p1, w)
      /\ ListsRepository.ToListAsync q (Some (s + n)) (Some m) w
         = (Returned p2, w)
      /\ ListsRepository.ToListAsync q (Some s) (Some (n + m)) w
         = (Returned p12, w)
      /\ (p1 ++ p2)%list = p12
      /\ List.length p1
         = Nat.min (Z.to_nat n) (List.length q - Z.to_nat s)
      /\ (List.length q <= Z.to_nat s -> p1 = [])%nat.
Proof.
  intros T q s n m w Hs Hn Hm.
  exists (page_of (Some s) (Some n) q), (page_of (Some (s + n)) (Some m) q),
    (page_of (Some s) (Some (n + m)) q).
  repeat split; try apply ToListAsync_page_of.
  - unfold page_of. rewrite !Z2Nat.inj_add by lia.
    rewrite Nat.add_comm, <- skipn_skipn. apply firstn_add_skipn.
  - unfold page_of. now rewrite length_firstn, length_skipn.
  - intros Hend. unfold page_of. rewrite skipn_all2 by exact Hend.
    apply firstn_nil.
Qed.

Lemma X7_witness :
  exists p1 p2 p12,
    ListsRepository.ToListAsync [0; 1; 2; 3; 4; 5; 6] (Some 1) (Some 2) sample
    = (Returned p1, sample)
    /\ ListsRepository.ToListAsync [0; 1; 2; 3; 4; 5; 6] (Some (1 + 2))
                                   (Some 3) sample
       = (Returned p2, sample)
    /\ ListsRepository.ToListAsync [0; 1; 2; 3; 4; 5; 6] (Some 1)
                                   (Some (2 + 3)) sample
       = (Returned p12, sample)
    /\ (p1 ++ p2)%list = p12
    /\ List.length p1 = Nat.min (Z.to_nat 2) (7 - Z.to_nat 1)
    /\ ((7 <= Z.to_nat 1)%nat -> p1 = []).
Proof.
  apply (X7_pages_tile_the_result Z [0; 1; 2; 3; 4; 5; 6] 1 2 3 sample); lia.
Defined.

Lemma page_of_In {T : Type} (skip batchSize : option Z) (l : list T) x :
  In x (page_of skip batchSize l) -> In x l.
Proof.
  assert (Hfirst : forall n (k : list T), In x (firstn n k) -> In x k).
  { intros n k H. rewrite <- (firstn_skipn n k). apply in_or_app. now left. }
  assert (Hskip : forall n (k : list T), In x (skipn n k) -> In x k).
  { intros n k H. rewrite <- (firstn_skipn n k). apply in_or_app. now right. }
  unfold page_of.
  destruct skip as [s|], batchSize as [n|]; intros Hin;
    repeat first [apply Hfirst in Hin | apply Hskip in Hin];
    exact Hin.
Qed.

Lemma GetListItemsAsync_run w listId skip batchSize :
  ListsRepository.GetListItemsAsync listId skip batchSize w
  = (Returned
       (page_of skip batchSize
          (filter (fun i => String.eqb (ListId i) listId) (TodoItemC w))),
     w).
Proof.
  unfold ListsRepository.GetListItemsAsync, bind. cbn.
  apply ToListAsync_page_of.
Qed.

Lemma GetListItemsByStateAsync_run w listId state skip batchSize :
  ListsRepository.GetListItemsByStateAsync listId state skip batchSize w
  = (Returned
       (page_of skip batchSize
          (filter (fun i => String.eqb (ListId i) listId
                            && String.eqb (State i) state)
                  (TodoItemC w))),
     w).
Proof.
  unfold ListsRepository.GetListItemsByStateAsync, bind. cbn.
  apply ToListAsync_page_of.
Qed.

(** X8. The item queries are scoped. Every item [GetListItemsAsync] returns
    is a document of the container with the requested list id, and without
    skip and limit it returns exactly those documents;
    [GetListItemsByStateAsync] returns only documents of that list in that
    state, and without skip and limit exactly those. *)
Theorem X8_item_queries_are_scoped :
  forall (w : World) (listId state : string) (skip batchSize : option Z),
    (exists items,
        ListsRepository.GetListItemsAsync listId skip batchSize w
        = (Returned items, w)
        /\ (forall i, In i items -> In i (TodoItemC w) /\ ListId i = listId)
        /\ (skip = None -> batchSize = None ->
            forall i, In i items <-> In i (TodoItemC w) /\ ListId i = listId))
    /\ (exists items,
           ListsRepository.GetListItemsByStateAsync
             listId state skip batchSize w
           = (Returned items, w)
           /\ (forall i, In i items ->
                         In i (TodoItemC w) /\ ListId i = listId
                         /\ State i = state)
           /\ (skip = None -> batchSize = None ->
               forall i, In i items <->
                         In i (TodoItemC w) /\ ListId i = listId
                         /\ State i = state)).
Proof.
  intros w listId state skip batchSize. split.
  - eexists. split; [apply GetListItemsAsync_run|]. split.
    + intros i Hin. apply page_of_In, filter_In in Hin.
      destruct Hin as [Hin Hl]. now apply String.eqb_eq in Hl.
    + intros -> -> i. cbn. rewrite filter_In.
      now rewrite String.eqb_eq.
  - eexists. split; [apply GetListItemsByStateAsync_run|]. split.
    + intros i Hin. apply page_of_In, filter_In in Hin.
      destruct Hin as [Hin Hl]. apply andb_prop in Hl.
      destruct Hl as [Hl Hst].
      apply String.eqb_eq in Hl. now apply String.eqb_eq in Hst.
    + intros -> -> i. cbn. rewrite filter_In.
      rewrite andb_true_iff, !String.eqb_eq. tauto.
Qed.

Lemma X8_witness :
  exists items,
    ListsRepository.GetListItemsAsync "A" None None sample
    = (Returned items, sample)
    /\ (In slides items <->
        In slides (TodoItemC sample) /\ ListId slides = "A")
    /\ (In errand items <->
        In errand (TodoItemC sample) /\ ListId errand = "A").
Proof.
  destruct (X8_item_queries_are_scoped sample "A" "done" None None)
    as [(items & Hrun & _ & Hall) _].
  exists items. split; [exact Hrun|].
  split; apply (Hall eq_refl eq_refl).
Defined.

(** ** The list endpoints *)

Lemma stored_list_Id w listId l :
  stored_list w listId = Some l -> ListDocId l = listId.
Proof.
  unfold stored_list. intros H. apply find_some in H. destruct H as [_ H].
  unfold has_list_id in H. now apply String.eqb_eq.
Qed.

Lemma GetListAsync_hit w listId l :
  stored_list w listId = Some l ->
  ListsRepository.GetListAsync listId w = (Returned (Some l), w).
Proof.
  intros H. unfold ListsRepository.GetListAsync, bind, ReadListAsync.
  unfold stored_list in H. now rewrite H.
Qed.

Lemma GetListAsync_absent w listId :
  stored_list w listId = None ->
  ListsRepository.GetListAsync listId w = (Faulted (CosmosException 404), w).
Proof.
  intros H. unfold ListsRepository.GetListAsync, bind, ReadListAsync.
  unfold stored_list in H. now rewrite H.
Qed.

Lemma list_after_delete (id : string) (ls : list TodoList) :
  find (has_list_id id) (filter (fun l => negb (has_list_id id l)) ls) = None.
Proof.
  induction ls as [|d ls IH]; [reflexivity|].
  cbn [filter]. destruct (has_list_id id d) eqn:Hd; cbn [negb]; [exact IH|].
  cbn [find]. rewrite Hd. exact IH.
Qed.

Lemma list_elsewhere_after_delete (id id' : string) (ls : list TodoList) :
  id' <> id ->
  find (has_list_id id') (filter (fun l => negb (has_list_id id l)) ls)
  = find (has_list_id id') ls.
Proof.
  intros Hne. induction ls as [|d ls IH]; [reflexivity|].
  cbn [find filter]. destruct (has_list_id id d) eqn:Hd; cbn [negb].
  - assert (Hd' : has_list_id id' d = false).
    { unfold has_list_id in *. apply String.eqb_eq in Hd. rewrite Hd.
      apply String.eqb_neq. congruence. }
    now rewrite Hd'.
  - cbn [find]. destruct (has_list_id id' d); [reflexivity|exact IH].
Qed.

Lemma list_after_replace (id : string) (r l : TodoList) (ls : list TodoList) :
  find (has_list_id id) ls = Some l -> ListDocId r = id ->
  find (has_list_id id) (map (fun d => if has_list_id id d then r else d) ls)
  = Some r.
Proof.
  intros Hf Hr. induction ls as [|d ls IH]; [discriminate|].
  cbn [find map] in *. destruct (has_list_id id d) eqn:Hd.
  - unfold has_list_id at 1. rewrite Hr, String.eqb_refl. reflexivity.
  - rewrite Hd. auto.
Qed.

Lemma list_elsewhere_after_replace (id id' : string) (r : TodoList)
    (ls : list TodoList) :
  id' <> id -> ListDocId r = id ->
  find (has_list_id id') (map (fun d => if has_list_id id d then r else d) ls)
  = find (has_list_id id') ls.
Proof.
  intros Hne Hr. induction ls as [|d ls IH]; [reflexivity|].
  cbn [find map]. destruct (has_list_id id d) eqn:Hd.
  - assert (Hr' : has_list_id id' r = false).
    { unfold has_list_id. rewrite Hr. apply String.eqb_neq. congruence. }
    assert (Hd' : has_list_id id' d = false).
    { unfold has_list_id in *. apply String.eqb_eq in Hd. rewrite Hd.
      apply String.eqb_neq. congruence. }
    now rewrite Hr', Hd'.
  - destruct (has_list_id id' d); [reflexivity|exact IH].
Qed.

(** X9. Deleting a list does not cascade. [DeleteList] on a stored list
    returns NoContent and removes that list document and no other, and it
    leaves the item container as it was: the items of the deleted list are
    still stored, and [GetListItemsAsync] still returns them. *)
Theorem X9_DeleteList_keeps_the_items :
  forall (w : World) (listId : string) (l : TodoList),
    stored_list w listId = Some l ->
    exists w',
      TodoEndpointsExtensions.DeleteList listId w
      = (Returned TodoEndpointsExtensions.Results_NoContent, w')
      /\ stored_list w' listId = None
      /\ (forall id', id' <> listId -> stored_list w' id' = stored_list w id')
      /\ TodoItemC w' = TodoItemC w
      /\ (forall skip batchSize,
          fst (ListsRepository.GetListItemsAsync listId skip batchSize w')
          = fst (ListsRepository.GetListItemsAsync listId skip batchSize w)).
Proof.
  intros w listId l Hl.
  unfold TodoEndpointsExtensions.DeleteList, bind.
  rewrite (GetListAsync_hit _ _ _ Hl).
  unfold ListsRepository.DeleteListAsync, DeleteListDocAsync.
  unfold stored_list in Hl. rewrite Hl. cbn.
  eexists. split; [reflexivity|]. repeat split.
  - apply list_after_delete.
  - intros id' Hne. now apply list_elsewhere_after_delete.
Qed.

Lemma X9_witness :
  exists w',
    TodoEndpointsExtensions.DeleteList "A" sample
    = (Returned TodoEndpointsExtensions.Results_NoContent, w')
    /\ stored_list w' "A" = None
    /\ (forall id', id' <> "A" -> stored_list w' id' = stored_list sample id')
    /\ TodoItemC w' = TodoItemC sample
    /\ (forall skip batchSize,
        fst (ListsRepository.GetListItemsAsync "A" skip batchSize w')
        = fst (ListsRepository.GetListItemsAsync "A" skip batchSize sample)).
Proof.
  apply (X9_DeleteList_keeps_the_items
           sample "A" (mkTodoList "A" "work" None None None)).
  reflexivity.
Defined.

(** X10. [UpdateList] on a stored list returns and stores the list with the
    requested name and description, the id and creation date it had, and
    the reading of the clock as its update date; [GetList] returns it
    afterwards, the other lists and all items are untouched. *)
Theorem X10_UpdateList_replaces_name_and_description :
  forall (w : World) (listId : string)
         (list : TodoEndpointsExtensions.CreateUpdateTodoList) (l : TodoList),
    stored_list w listId = Some l ->
    exists l' w',
      TodoEndpointsExtensions.UpdateList listId list w
      = (Returned (TodoEndpointsExtensions.Results_Ok l'), w')
      /\ l' = mkTodoList listId (TodoEndpointsExtensions.list_name list)
                         (TodoEndpointsExtensions.list_description list)
                         (ListCreatedDate l) (Some (reading w 0))
      /\ TodoEndpointsExtensions.GetList listId w'
         = (Returned (TodoEndpointsExtensions.Results_Ok l'), w')
      /\ (forall id', id' <> listId -> stored_list w' id' = stored_list w id')
      /\ TodoItemC w' = TodoItemC w.
Proof.
  intros w listId list l Hl. pose proof (stored_list_Id _ _ _ Hl) as Hid.
  unfold TodoEndpointsExtensions.UpdateList, bind.
  rewrite (GetListAsync_hit _ _ _ Hl).
  unfold UtcNow, ListsRepository.UpdateList, ReplaceListAsync, ret, reading.
  replace (reads w + 0)%nat with (reads w) by lia.
  unfold stored_list in Hl. cbn. rewrite Hid, Hl.
  eexists; eexists. split; [reflexivity|]. split; [reflexivity|].
  repeat split.
  - unfold TodoEndpointsExtensions.GetList, bind.
    rewrite (GetListAsync_hit _ listId
               (mkTodoList listId (TodoEndpointsExtensions.list_name list)
                  (TodoEndpointsExtensions.list_description list)
                  (ListCreatedDate l) (Some (clock w (reads w)))));
      [reflexivity|].
    unfold stored_list. cbn. now apply list_after_replace with (l := l).
  - intros id' Hne. unfold stored_list. cbn.
    now apply list_elsewhere_after_replace.
Qed.

Lemma X10_witness :
  exists l' w',
    TodoEndpointsExtensions.UpdateList
      "B"
      (TodoEndpointsExtensions.mkCreateUpdateTodoList "house" (Some "chores"))
      sample
    = (Returned (TodoEndpointsExtensions.Results_Ok l'), w')
    /\ l' = mkTodoList "B" "house" (Some "chores") None (Some (hour 5))
    /\ TodoEndpointsExtensions.GetList "B" w'
       = (Returned (TodoEndpointsExtensions.Results_Ok l'), w')
    /\ (forall id', id' <> "B" -> stored_list w' id' = stored_list sample id')
    /\ TodoItemC w' = TodoItemC sample.
Proof.
  apply (X10_UpdateList_replaces_name_and_description
           sample "B"
           (TodoEndpointsExtensions.mkCreateUpdateTodoList
              "house" (Some "chores"))
           (mkTodoList "B" "home" None None None)).
  reflexivity.
Defined.

(** X11. [GetListItem] reads and never writes. When the list is stored, it
    returns the item stored under the id in that list, and NotFound for a
    document that belongs to another list; it returns Ok only for a stored
    list and an item stored in it; and whatever it returns, both containers
    are as before. *)
Theorem X11_GetListItem_needs_list_and_item :
  forall (w : World) (listId itemId : string),
    (forall l e,
        stored_list w listId = Some l -> existing w listId itemId e ->
        fst (TodoEndpointsExtensions.GetListItem listId itemId w)
        = Returned (TodoEndpointsExtensions.Ok e))
    /\ (forall l e,
        stored_list w listId = Some l ->
        stored w itemId = Some e -> ListId e <> listId ->
        fst (TodoEndpointsExtensions.GetListItem listId itemId w)
        = Returned TodoEndpointsExtensions.NotFound)
    /\ (forall r,
        fst (TodoEndpointsExtensions.GetListItem listId itemId w)
        = Returned (TodoEndpointsExtensions.Ok r) ->
        stored_list w listId <> None /\ existing w listId itemId r)
    /\ TodoItemC (snd (TodoEndpointsExtensions.GetListItem listId itemId w))
       = TodoItemC w
    /\ TodoListC (snd (TodoEndpointsExtensions.GetListItem listId itemId w))
       = TodoListC w.
Proof.
  intros w listId itemId.
  unfold TodoEndpointsExtensions.GetListItem, bind.
  destruct (stored_list w listId) as [l|] eqn:Hl.
  - rewrite (GetListAsync_hit _ _ _ Hl).
    destruct (GetListItemAsync_cases w listId itemId)
      as [[e He]|[[e [Hs Hne]]|Hs]].
    + rewrite (GetListItemAsync_hit _ _ _ _ He). cbn. repeat split.
      * intros _ e' _ [Hs' _]. destruct He as [Hs _]. congruence.
      * intros _ e' _ Hs' Hne. destruct He as [Hs Heq]. congruence.
      * discriminate.
      * injection H as <-. now destruct He.
      * injection H as <-. now destruct He.
    + rewrite (GetListItemAsync_other_list _ _ _ _ Hs Hne). cbn.
      repeat split; try discriminate.
      intros _ e' _ [Hs' Heq]. congruence.
    + rewrite (GetListItemAsync_absent _ _ _ Hs). cbn.
      repeat split; try discriminate.
      * intros _ e' _ [Hs' _]. congruence.
      * intros _ e' _ Hs'. congruence.
  - rewrite (GetListAsync_absent _ _ Hl). cbn.
    repeat split; discriminate.
Qed.

Lemma X11_witness :
  fst (TodoEndpointsExtensions.GetListItem "A" "i2" sample)
  = Returned (TodoEndpointsExtensions.Ok slides)
  /\ fst (TodoEndpointsExtensions.GetListItem "A" "i3" sample)
     = Returned TodoEndpointsExtensions.NotFound.
Proof.
  split.
  - destruct (X11_GetListItem_needs_list_and_item sample "A" "i2") as [H _].
    apply (H (mkTodoList "A" "work" None None None) slides);
      [reflexivity|split; reflexivity].
  - destruct (X11_GetListItem_needs_list_and_item sample "A" "i3")
      as [_ [H _]].
    apply (H (mkTodoList "A" "work" None None None) errand);
      [reflexivity|reflexivity|discriminate].
Defined.

Lemma stored_after_upsert (r : TodoItem) (l : list TodoItem) :
  find (has_id (Id r))
       (match find (has_id (Id r)) l with
        | Some _ => map (fun d => if has_id (Id r) d then r else d) l
        | None => (l ++ [r])%list
        end)
  = Some r.
Proof.
  destruct (find (has_id (Id r)) l) as [e|] eqn:Hf.
  - now apply stored_after_replace with (e := e).
  - induction l as [|d l IH]; cbn in *.
    + unfold has_id. now rewrite String.eqb_refl.
    + destruct (has_id (Id r) d); [discriminate|auto].
Qed.

Lemma stored_elsewhere_after_upsert (id' : string) (r : TodoItem)
    (l : list TodoItem) :
  id' <> Id r ->
  find (has_id id')
       (match find (has_id (Id r)) l with
        | Some _ => map (fun d => if has_id (Id r) d then r else d) l
        | None => (l ++ [r])%list
        end)
  = find (has_id id') l.
Proof.
  intros Hne. destruct (find (has_id (Id r)) l) as [e|] eqn:Hf.
  - now apply stored_elsewhere_after_replace.
  - clear Hf. induction l as [|d l IH]; cbn.
    + unfold has_id. apply String.eqb_neq in Hne.
      rewrite String.eqb_sym. now rewrite Hne.
    + destruct (has_id id' d); [reflexivity|exact IH].
Qed.

(** X12. [CreateListItem] for a stored list answers Created with the new
    item, whose id is the fresh guid and whose name, description, state and
    due date are the request's; the item is stored under that id and every
    other document is as before. The location it reports is [/lists/], the
    list id, [/items] and the item id, with nothing between [/items] and
    the id. *)
Theorem X12_CreateListItem_stores_under_the_new_id :
  forall (w : World) (guid listId : string) (item : CreateUpdateTodoItem)
         (l : TodoList),
    stored_list w listId = Some l ->
    exists r w',
      TodoEndpointsExtensions.CreateListItem guid listId item w
      = (Returned
           (TodoEndpointsExtensions.Results_Created
              ("/lists/" ++ listId ++ "/items" ++ guid) r),
         w')
      /\ Id r = guid
      /\ Name r = name item /\ Description r = description item
      /\ State r = state item /\ DueDate r = dueDate item
      /\ stored w' guid = Some r
      /\ (forall id', id' <> guid -> stored w' id' = stored w id')
      /\ TodoListC w' = TodoListC w.
Proof.
  intros w guid listId item l Hl.
  unfold TodoEndpointsExtensions.CreateListItem, bind.
  rewrite (GetListAsync_hit _ _ _ Hl).
  unfold UtcNow, ListsRepository.AddListItemAsync, bind, UpsertItemAsync, ret.
  cbn.
  set (r := mkTodoItem guid listId (name item) (description item)
                       (state item) (dueDate item) None
                       (Some (clock w (reads w))) None).
  pose proof (stored_after_upsert r (TodoItemC w)) as Hst.
  pose proof (fun id' => stored_elsewhere_after_upsert id' r (TodoItemC w))
    as Hfr.
  change (Id r) with guid in Hst, Hfr.
  destruct (find (has_id guid) (TodoItemC w)) as [d|];
    (exists r; eexists; split; [reflexivity|]);
    repeat split; auto.
Qed.

Lemma X12_witness :
  exists r w',
    TodoEndpointsExtensions.CreateListItem "f00d" "A" agenda sample
    = (Returned
         (TodoEndpointsExtensions.Results_Created "/lists/A/itemsf00d" r),
       w')
    /\ Id r = "f00d"
    /\ Name r = "agenda" /\ Description r = None
    /\ State r = "todo" /\ DueDate r = Some (hour 20)
    /\ stored w' "f00d" = Some r
    /\ (forall id', id' <> "f00d" -> stored w' id' = stored sample id')
    /\ TodoListC w' = TodoListC sample.
Proof.
  apply (X12_CreateListItem_stores_under_the_new_id
           sample "f00d" "A" agenda (mkTodoList "A" "work" None None None)).
  reflexivity.
Defined.

(** X21. The listing endpoints read and never write. For a stored list,
    [GetListItems] and [GetListItemsByState] answer Ok with exactly what the
    repository queries [GetListItemsAsync] and [GetListItemsByStateAsync]
    return, which is the requested page of the container's documents of
    that list (and of that state), so items of that list only (and of that
    state only), and they leave the store as it is. [GetListItems] answers
    Ok only for a stored list, and then with what the repository query
    returns. [GetLists] answers Ok with the requested page of the list
    container. *)
Theorem X21_listing_endpoints_return_the_scoped_page :
  forall (w : World) (listId state : string) (skip batchSize : option Z),
    (forall l,
        stored_list w listId = Some l ->
        exists items byState,
          ListsRepository.GetListItemsAsync listId skip batchSize w
          = (Returned items, w)
          /\ ListsRepository.GetListItemsByStateAsync
               listId state skip batchSize w
             = (Returned byState, w)
          /\ TodoEndpointsExtensions.GetListItems listId skip batchSize w
             = (Returned (TodoEndpointsExtensions.Results_Ok items), w)
          /\ TodoEndpointsExtensions.GetListItemsByState
               listId state skip batchSize w
             = (Returned (TodoEndpointsExtensions.Results_Ok byState), w)
          /\ items
             = page_of skip batchSize
                 (filter (fun i => String.eqb (ListId i) listId) (TodoItemC w))
          /\ byState
             = page_of skip batchSize
                 (filter (fun i => String.eqb (ListId i) listId
                                   && String.eqb (State i) state)
                         (TodoItemC w))
          /\ (forall i, In i items -> In i (TodoItemC w) /\ ListId i = listId)
          /\ (forall i, In i byState ->
                        In i (TodoItemC w) /\ ListId i = listId
                        /\ State i = state))
    /\ (forall items w',
        TodoEndpointsExtensions.GetListItems listId skip batchSize w
        = (Returned (TodoEndpointsExtensions.Results_Ok items), w') ->
        stored_list w listId <> None /\ w' = w
        /\ ListsRepository.GetListItemsAsync listId skip batchSize w
           = (Returned items, w))
    /\ TodoEndpointsExtensions.GetLists skip batchSize w
       = (Returned
            (TodoEndpointsExtensions.Results_Ok
               (page_of skip batchSize (TodoListC w))),
          w).
Proof.
  intros w listId state skip batchSize.
  assert (Hby : forall i,
             In i (page_of skip batchSize
                     (filter (fun i => String.eqb (ListId i) listId
                                       && String.eqb (State i) state)
                             (TodoItemC w))) ->
             In i (TodoItemC w) /\ ListId i = listId /\ State i = state).
  { intros i Hin. apply page_of_In, filter_In in Hin.
    destruct Hin as [Hin Hl]. apply andb_prop in Hl. destruct Hl as [Hl Hst].
    apply String.eqb_eq in Hl. now apply String.eqb_eq in Hst. }
  assert (Hin : forall i,
             In i (page_of skip batchSize
                     (filter (fun i => String.eqb (ListId i) listId)
                             (TodoItemC w))) ->
             In i (TodoItemC w) /\ ListId i = listId).
  { intros i Hi. apply page_of_In, filter_In in Hi.
    destruct Hi as [Hi Hl]. now apply String.eqb_eq in Hl. }
  split; [|split].
  - intros l Hl. eexists; eexists.
    split; [apply GetListItemsAsync_run|].
    split; [apply GetListItemsByStateAsync_run|].
    unfold TodoEndpointsExtensions.GetListItems,
      TodoEndpointsExtensions.GetListItemsByState, bind.
    rewrite (GetListAsync_hit _ _ _ Hl), GetListItemsAsync_run,
      GetListItemsByStateAsync_run.
    split; [reflexivity|]. split; [reflexivity|].
    split; [reflexivity|]. split; [reflexivity|].
    split; [exact Hin|exact Hby].
  - intros items' w' Hok.
    unfold TodoEndpointsExtensions.GetListItems, bind in Hok.
    destruct (stored_list w listId) as [l|] eqn:Hl.
    + rewrite (GetListAsync_hit _ _ _ Hl), GetListItemsAsync_run in Hok.
      injection Hok as <- <-. split; [discriminate|]. split; [reflexivity|].
      apply GetListItemsAsync_run.
    + rewrite (GetListAsync_absent _ _ Hl) in Hok. discriminate.
  - unfold TodoEndpointsExtensions.GetLists, ListsRepository.GetListsAsync,
      bind.
    change (ListsRepository._listsCollection w) with (Returned (TodoListC w), w).
    cbv beta iota. now rewrite ToListAsync_page_of.
Qed.

Lemma X21_witness :
  TodoEndpointsExtensions.GetListItems "A" None None sample
  = (Returned (TodoEndpointsExtensions.Results_Ok [report; slides]), sample)
  /\ TodoEndpointsExtensions.GetListItemsByState "A" "done" None None sample
     = (Returned (TodoEndpointsExtensions.Results_Ok [report]), sample)
  /\ ListsRepository.GetListItemsAsync "A" None None sample
     = (Returned [report; slides], sample).
Proof.
  destruct (X21_listing_endpoints_return_the_scoped_page
              sample "A" "done" None None) as [H _].
  destruct (H (mkTodoList "A" "work" None None None) eq_refl)
    as (items & byState & Hrepo & _ & Hrun & Hrun' & Hitems & Hstate & _).
  rewrite Hitems in Hrun, Hrepo. rewrite Hstate in Hrun'.
  split; [exact Hrun|]. split; [exact Hrun'|exact Hrepo].
Defined.

(** X22. Where exactly the endpoint reopens. For a stored done item due at
    [D] and a request with state done and due date [newDue], the item comes
    back todo if and only if [newDue] lies strictly after the reading of
    the clock and at least one hour after [D]; otherwise it stays done. One
    tick short of the hour, or a due date equal to now, does not reopen. *)
Theorem X22_reopen_boundary :
  forall (w : World) (listId itemId : string) (item : CreateUpdateTodoItem)
         (e : TodoItem) (D newDue : DateTimeOffset),
    existing w listId itemId e ->
    State e = "done" -> DueDate e = Some D ->
    state item = "done" -> dueDate item = Some newDue ->
    exists r w',
      TodoEndpointsExtensions.UpdateListItem listId itemId item w
      = (Returned (TodoEndpointsExtensions.Ok r), w')
      /\ (State r = "todo" <->
          reading w 1 < newDue /\ D + TicksPerHour <= newDue)
      /\ (State r = "done" <->
          ~ (reading w 1 < newDue /\ D + TicksPerHour <= newDue)).
Proof.
  intros w listId itemId item e D newDue He Hold HD Hreq Hdue.
  destruct (UpdateListItem_outcome w listId itemId item e He)
    as (r & w' & Hrun & _ & HS & _).
  exists r, w'. split; [exact Hrun|].
  assert (Hre : reopen_rule e item (reading w 1) = true <->
                reading w 1 < newDue /\ D + TicksPerHour <= newDue).
  { unfold reopen_rule. rewrite Hold, Hreq, Hdue, HD.
    change (String.eqb "done" "done") with true. cbn [andb].
    rewrite !andb_true_iff, negb_true_iff, Z.eqb_neq, Z.ltb_lt, Z.leb_le.
    unfold TicksPerHour. split; intros; [lia|].
    repeat split; lia. }
  rewrite HS, Hreq.
  destruct (reopen_rule e item (reading w 1)) eqn:E; try rewrite E in Hre.
  - destruct Hre as [HP _]. specialize (HP eq_refl).
    split; split; auto; try discriminate. intros H. contradiction.
  - destruct Hre as [_ HP].
    assert (Hno : ~ (reading w 1 < newDue /\ D + TicksPerHour <= newDue))
      by (intros H; specialize (HP H); discriminate).
    split; split; auto; try discriminate. intros H. contradiction.
Qed.

Lemma X22_witness :
  exists r w',
    TodoEndpointsExtensions.UpdateListItem
      "A" "i1"
      (mkCreateUpdateTodoItem "report" "done"
                              (Some (hour 10 + TicksPerHour - 1))
                              (Some (hour 9)) None)
      sample
    = (Returned (TodoEndpointsExtensions.Ok r), w')
    /\ (State r = "todo" <->
        reading sample 1 < hour 10 + TicksPerHour - 1
        /\ hour 10 + TicksPerHour <= hour 10 + TicksPerHour - 1)
    /\ (State r = "done" <->
        ~ (reading sample 1 < hour 10 + TicksPerHour - 1
           /\ hour 10 + TicksPerHour <= hour 10 + TicksPerHour - 1)).
Proof.
  apply (X22_reopen_boundary
           sample "A" "i1"
           (mkCreateUpdateTodoItem "report" "done"
                                   (Some (hour 10 + TicksPerHour - 1))
                                   (Some (hour 9)) None)
           report (hour 10) (hour 10 + TicksPerHour - 1));
    [split; reflexivity|reflexivity|reflexivity|reflexivity|reflexivity].
Defined.

(** X23. Where the two entry points agree. When the stored item is not done
    or the request's state is not done, and both take the same reading of
    the clock, [UpdateListItem] and [UpdateListItemWithStateLogic] leave the
    item with the same state, completed date and due date. *)
Theorem X23_entry_points_agree_outside_done_to_done :
  forall (w : World) (listId itemId : string) (item : CreateUpdateTodoItem)
         (e : TodoItem),
    existing w listId itemId e ->
    State e <> "done" \/ state item <> "done" ->
    reading w 0 = reading w 1 ->
    exists r1 w1 r2 w2,
      TodoEndpointsExtensions.UpdateListItem listId itemId item w
      = (Returned (TodoEndpointsExtensions.Ok r1), w1)
      /\ ListsRepository.UpdateListItemWithStateLogic
           e (state item) (dueDate item) (completedDate item) w
         = (Returned r2, w2)
      /\ State r1 = State r2
      /\ CompletedDate r1 = CompletedDate r2
      /\ DueDate r1 = DueDate r2.
Proof.
  intros w listId itemId item e He Hcase Hclock.
  destruct (UpdateListItem_outcome w listId itemId item e He)
    as (r1 & w1 & Hrun1 & _ & HS1 & HC1 & HD1).
  destruct He as [Hs _].
  destruct (UpdateListItemWithStateLogic_outcome
              w itemId e (state item) (dueDate item) (completedDate item) Hs)
    as (r2 & w2 & Hrun2 & _ & HS2 & HC2 & HD2).
  exists r1, w1, r2, w2. split; [exact Hrun1|]. split; [exact Hrun2|].
  assert (Hre : reopen_rule e item (reading w 1) = false).
  { destruct Hcase as [H|H];
      [now apply reopen_rule_needs_done
      |now apply reopen_rule_needs_done_request]. }
  assert (Hlax : lax_reopen_rule e (state item) (dueDate item) (reading w 0)
                 = false).
  { destruct Hcase as [H|H];
      [|now apply lax_reopen_rule_needs_done_request].
    unfold lax_reopen_rule. apply String.eqb_neq in H. now rewrite H. }
  rewrite Hre in HS1. rewrite Hlax in HS2, HC2.
  rewrite HS1, HS2, HC1, HC2, HD1, HD2, Hclock. auto.
Qed.

Lemma X23_witness :
  exists r1 w1 r2 w2,
    TodoEndpointsExtensions.UpdateListItem "A" "i2" finish sample
    = (Returned (TodoEndpointsExtensions.Ok r1), w1)
    /\ ListsRepository.UpdateListItemWithStateLogic
         slides (state finish) (dueDate finish) (completedDate finish) sample
       = (Returned r2, w2)
    /\ State r1 = State r2
    /\ CompletedDate r1 = CompletedDate r2
    /\ DueDate r1 = DueDate r2.
Proof.
  apply (X23_entry_points_agree_outside_done_to_done
           sample "A" "i2" finish slides).
  - split; reflexivity.
  - left. discriminate.
  - reflexivity.
Defined.

End ApiFacts.

(* ================================================================== *)
(** * Properties of the front end *)
(* ================================================================== *)

Module WebFacts.

Import Web.

(** ** Reading the environment leaves the browser as it is *)

Lemma getCurrentTimezone_run b :
  getCurrentTimezone b = (fst (getCurrentTimezone b), b).
Proof.
  unfold getCurrentTimezone, bind, asks, ret. cbn.
  destruct (cachedLocation b) as [l|]; [|reflexivity].
  now destruct (truthy (timezone l)).
Qed.

Lemma userTimezone_of_run userLocation b :
  userTimezone_of userLocation b = (fst (userTimezone_of userLocation b), b).
Proof.
  unfold userTimezone_of. destruct userLocation as [l|].
  - destruct (truthy (timezone l)); [reflexivity|apply getCurrentTimezone_run].
  - apply getCurrentTimezone_run.
Qed.

Lemma new_Date_of_run v b : new_Date_of v b = (fst (new_Date_of v b), b).
Proof. now destruct v. Qed.

(** ** The countdown column *)

Lemma mentions_app c (x y : string) : mentions c (x ++ String c y) = true.
Proof.
  induction x as [|a x IH]; cbn.
  - now rewrite Ascii.eqb_refl.
  - rewrite IH. apply orb_true_r.
Qed.

(** A countdown text is never the overdue text. *)
Lemma countdown_text_is_not_Due (days rest : string) :
  days ++ "d " ++ rest <> "Due!".
Proof.
  intros H. pose proof (mentions_app "d" days (" " ++ rest)) as Hm.
  cbn [append] in H, Hm. rewrite H in Hm. discriminate.
Qed.

(** What the countdown arm computes for a task that is not done and has a
    due date whose conversion is a valid date: the overdue text exactly when
    the converted due date lies strictly before the clock as [isPast] reads
    it, which is the second reading, the first being [new Date()]. *)
Lemma countdown_of_due b userLocation item v z :
  display_state item <> Done ->
  originalDueDate item = Some v ->
  has_due (Some v) = true ->
  lib_toZonedTime b (fst (new_Date_of v b))
                  (fst (userTimezone_of userLocation b)) = Instant z ->
  (z < clock b (S (reads b)) ->
   fst (renderItemColumn_countdown userLocation item b)
   = mkText "Due!" "#d13438" "600")
  /\ (clock b (S (reads b)) <= z ->
      exists days rest,
        children (fst (renderItemColumn_countdown userLocation item b))
        = days ++ "d " ++ rest).
Proof.
  intros Hstate Hdue Hhas Hz.
  assert (Hnot : TodoItemState_eqb (display_state item) Done = false)
    by (destruct (display_state item); [reflexivity|reflexivity|contradiction]).
  split; intros Hcmp;
    [apply Z.ltb_lt in Hcmp|apply Z.ltb_ge in Hcmp];
    unfold renderItemColumn_countdown; rewrite Hnot, Hdue, Hhas;
    unfold bind at 1 2; rewrite new_Date_of_run;
    unfold bind at 1; rewrite userTimezone_of_run;
    unfold bind, new_Date, Date_now, toZonedTime, isPast, differenceInDays,
      asks, ret;
    cbn; rewrite Hz, Hcmp; cbn; eauto.
Qed.

(** When the converted due date and the converted now are the same instant
    and the overdue test does not find the due date past, the countdown is
    in the red of the nearest tier. *)
Lemma countdown_colour_at_now b userLocation item v z :
  display_state item <> Done ->
  originalDueDate item = Some v ->
  has_due (Some v) = true ->
  lib_toZonedTime b (fst (new_Date_of v b))
                  (fst (userTimezone_of userLocation b)) = Instant z ->
  lib_toZonedTime b (Instant (clock b (reads b)))
                  (fst (userTimezone_of userLocation b)) = Instant z ->
  clock b (S (reads b)) <= z ->
  color (fst (renderItemColumn_countdown userLocation item b)) = "#d13438".
Proof.
  intros Hstate Hdue Hhas Hz Hn Hcmp.
  assert (Hnot : TodoItemState_eqb (display_state item) Done = false)
    by (destruct (display_state item); [reflexivity|reflexivity|contradiction]).
  apply Z.ltb_ge in Hcmp.
  unfold renderItemColumn_countdown. rewrite Hnot, Hdue, Hhas.
  unfold bind at 1 2. rewrite new_Date_of_run.
  unfold bind at 1. rewrite userTimezone_of_run.
  unfold bind, new_Date, Date_now, toZonedTime, isPast, differenceInDays,
    asks, ret.
  cbn. rewrite Hz, Hn, Hcmp. cbn. rewrite Z.sub_diag. reflexivity.
Qed.

(** C5, amended. For a task that is not done and has a due date, where the
    conversion into the user's time zone leaves now as it is and the clock
    does not run backwards: if the due date, converted into that time zone,
    lies strictly before now, the cell shows "Due!" in the colour of the
    overdue tier; if the converted due date is exactly now, and the clock
    has not moved on when the overdue test reads it, the cell shows a
    countdown, not "Due!", in that same colour. *)
Theorem C5_overdue_when_strictly_before_now :
  forall (b : Browser) (userLocation : option LocationData)
         (item : TodoDisplayItem) (v : DateOrString) (z : Z),
    display_state item <> Done ->
    originalDueDate item = Some v ->
    has_due (Some v) = true ->
    lib_toZonedTime b (fst (new_Date_of v b))
                    (fst (userTimezone_of userLocation b))
    = Instant z ->
    lib_toZonedTime b (Instant (clock b (reads b)))
                    (fst (userTimezone_of userLocation b))
    = Instant (clock b (reads b)) ->
    clock b (reads b) <= clock b (S (reads b)) ->
    let now := clock b (reads b) in
    let shown := fst (renderItemColumn_countdown userLocation item b) in
    (z < now -> children shown = "Due!" /\ color shown = "#d13438")
    /\ (z = now -> clock b (S (reads b)) = now ->
        children shown <> "Due!" /\ color shown = "#d13438").
Proof.
  intros b userLocation item v z Hstate Hdue Hhas Hz Hn Hclock now shown.
  destruct (countdown_of_due b userLocation item v z Hstate Hdue Hhas Hz)
    as [Hpast Hahead].
  subst now shown. split.
  - intros Hlt. rewrite Hpast by lia. now split.
  - intros Heq Hstill. split.
    + destruct Hahead as (days & rest & Htext); [lia|].
      rewrite Htext. apply countdown_text_is_not_Due.
    + subst z.
      apply (countdown_colour_at_now b userLocation item v
               (clock b (reads b))); auto. lia.
Qed.

Lemma C5_witness :
  (children (fst (renderItemColumn_countdown None just_missed desk)) = "Due!"
   /\ color (fst (renderItemColumn_countdown None just_missed desk))
      = "#d13438")
  /\ (children (fst (renderItemColumn_countdown None due_now desk)) <> "Due!"
      /\ color (fst (renderItemColumn_countdown None due_now desk))
         = "#d13438").
Proof.
  split.
  - apply (C5_overdue_when_strictly_before_now
             desk None just_missed (ADate (Instant 999999)) 999999);
      [discriminate|reflexivity|reflexivity|reflexivity
      |reflexivity|cbn; lia|cbn; lia].
  - apply (C5_overdue_when_strictly_before_now
             desk None due_now (ADate (Instant 1000000)) 1000000);
      [discriminate|reflexivity|reflexivity|reflexivity
      |reflexivity|cbn; lia|reflexivity|reflexivity].
Defined.

(** C5 as stated fails at the boundary: the task is in progress, its due
    date converted into the user's time zone is the very instant every
    reading of the clock returns, so it is less than or equal to now; yet the
    cell shows the zero countdown, in the colour of the overdue tier, and
    not "Due!". *)
Lemma C5_counterexample :
  display_state due_now <> Done
  /\ originalDueDate due_now = Some (ADate (Instant 1000000))
  /\ fst (userTimezone_of None desk) = "UTC"
  /\ lib_toZonedTime desk (Instant 1000000) "UTC" = Instant 1000000
  /\ clock desk 0 = 1000000 /\ clock desk 1 = 1000000
  /\ fst (renderItemColumn_countdown None due_now desk)
     = mkText "0d 0h 0m 0s" "#d13438" "600"
  /\ children (fst (renderItemColumn_countdown None due_now desk)) <> "Due!".
Proof.
  repeat split; try reflexivity; discriminate.
Qed.

(** ** Saving from the detail pane *)

Lemma combinedDueDate_of_run dueDate dueTime b :
  combinedDueDate_of dueDate dueTime b
  = (fst (combinedDueDate_of dueDate dueTime b), b).
Proof.
  unfold combinedDueDate_of. destruct dueDate as [d|]; [|reflexivity].
  destruct (truthy dueTime); [|reflexivity].
  unfold bind, setHours, inTimeZone, asks, ret.
  pose proof (getCurrentTimezone_run b) as Htz.
  destruct (getCurrentTimezone b) as [tz b1]. cbn in Htz.
  injection Htz as <-. reflexivity.
Qed.

(** C9. Every item [saveTodoItem] hands to [onEdit] carries the selected
    state, and has a completed date exactly when that state is Done: for Done
    it is the completed date the item had, or else the current time (the
    first reading of the clock); for any other state it is undefined. So the
    update request built from such an item never asks for state Done without
    a completed date. The pane does hand an item over whenever the item it
    edits has a non-empty id. *)
Theorem C9_saved_item_completed_iff_done :
  forall (props_item : option TodoItem) (nm : string)
         (descr : option string) (due : option Date) (dueTime : string)
         (selected : TodoItemState) (b : Browser),
    (forall todoItem b',
        saveTodoItem props_item nm descr due dueTime selected b
        = (Some todoItem, b') ->
        state todoItem = selected
        /\ (completedDate todoItem <> None <-> state todoItem = Done)
        /\ (selected = Done ->
            exists item,
              props_item = Some item
              /\ completedDate todoItem
                 = Some match completedDate item with
                        | Some c => c
                        | None => Instant (clock b (reads b))
                        end)
        /\ (selected <> Done -> completedDate todoItem = None)
        /\ (ItemService.state (ItemService.updateData todoItem) = Done ->
            ItemService.completedDate (ItemService.updateData todoItem)
            <> None))
    /\ (forall item i,
        props_item = Some item -> id item = Some i -> i <> "" ->
        exists todoItem b',
          saveTodoItem props_item nm descr due dueTime selected b
          = (Some todoItem, b')).
Proof.
  intros props_item nm descr due dueTime selected b. split.
  - intros todoItem b' Hrun. unfold saveTodoItem in Hrun.
    destruct props_item as [item|]; [|discriminate].
    destruct (id item) as [i|]; [|discriminate].
    destruct (truthy i); cbn [negb] in Hrun; [|discriminate].
    unfold bind at 1 in Hrun. rewrite combinedDueDate_of_run in Hrun.
    unfold bind, new_Date, Date_now, ret in Hrun.
    destruct selected; cbn in Hrun;
      try (injection Hrun as <- _; cbn; repeat split;
           solve [discriminate | contradiction | intros H; now destruct H]).
    destruct (completedDate item) as [c|] eqn:Hc; cbn in Hrun;
      injection Hrun as <- _; cbn; repeat split;
      solve [discriminate | contradiction | exists item; now rewrite Hc].
  - intros item i -> Hid Hi. unfold saveTodoItem. rewrite Hid.
    apply String.eqb_neq in Hi. unfold truthy. rewrite Hi. cbn [negb].
    unfold bind at 1. rewrite combinedDueDate_of_run.
    unfold bind, new_Date, Date_now, ret.
    destruct selected, (completedDate item); cbn; eauto.
Qed.

Lemma C9_witness :
  exists todoItem b',
    saveTodoItem (Some slides) "slides" None None "" Done desk
    = (Some todoItem, b')
    /\ state todoItem = Done
    /\ (completedDate todoItem <> None <-> state todoItem = Done)
    /\ completedDate todoItem = Some (Instant 1000000).
Proof.
  destruct (C9_saved_item_completed_iff_done
              (Some slides) "slides" None None "" Done desk) as [Hsent Hsends].
  destruct (Hsends slides "i2" eq_refl eq_refl) as (todoItem & b' & Hrun);
    [discriminate|].
  exists todoItem, b'. split; [exact Hrun|].
  destruct (Hsent todoItem b' Hrun) as (Hstate & Hiff & Hdone & _).
  split; [exact Hstate|]. split; [exact Hiff|].
  destruct (Hdone eq_refl) as (item & Hitem & Hc).
  injection Hitem as <-. exact Hc.
Defined.

(** ** More on the countdown column *)

(** X13. Cells that do not look at the clock. A done task shows "Complete"
    in green and bold whatever its due date; a task that is not done and has
    no usable due date shows "N/A" in grey, at weight 600; in both cases the
    clock is not read. For the display items [createListItems] builds, the
    state is the item's and the due date is unusable exactly when the item
    has none. *)
Theorem X13_cells_that_ignore_the_clock :
  forall (b : Browser) (userLocation : option LocationData),
    (forall item,
        display_state item = Done ->
        renderItemColumn_countdown userLocation item b
        = (mkText "Complete" "#107c10" "bold", b))
    /\ (forall item,
        display_state item <> Done ->
        has_due (originalDueDate item) = false ->
        renderItemColumn_countdown userLocation item b
        = (mkText "N/A" "#666" "600", b))
    /\ (forall toDateString items d,
        In d (createListItems toDateString items) ->
        In (data d) items
        /\ display_state d = state (data d)
        /\ (has_due (originalDueDate d) = false <-> dueDate (data d) = None)).
Proof.
  intros b userLocation. repeat apply conj.
  - intros item Hdone. unfold renderItemColumn_countdown.
    now rewrite Hdone.
  - intros item Hstate Hdue.
    assert (Hnot : TodoItemState_eqb (display_state item) Done = false)
      by (destruct (display_state item);
          [reflexivity|reflexivity|contradiction]).
    unfold renderItemColumn_countdown. rewrite Hnot.
    destruct (originalDueDate item) as [v|]; [|reflexivity].
    now rewrite Hdue.
  - intros toDateString items d Hin. unfold createListItems in Hin.
    apply in_map_iff in Hin. destruct Hin as (item & <- & Hin). cbn.
    repeat split; auto; destruct (dueDate item); cbn; congruence.
Qed.

Lemma X13_witness :
  renderItemColumn_countdown
    None (mkTodoDisplayItem "report" Done None "" "" finished
                            (Some (ADate (Instant 500)))) desk
  = (mkText "Complete" "#107c10" "bold", desk)
  /\ (forall d, In d (createListItems some_day [finished; undated]) ->
                display_state d <> Done ->
                renderItemColumn_countdown None d desk
                = (mkText "N/A" "#666" "600", desk)).
Proof.
  destruct (X13_cells_that_ignore_the_clock desk None)
    as (Hdone & Hnone & Hitems).
  split.
  - apply Hdone. reflexivity.
  - intros d Hin Hstate. apply Hnone; [exact Hstate|].
    destruct (Hitems some_day [finished; undated] d Hin) as (_ & Hst & Hdue).
    apply Hdue. cbn in Hin. destruct Hin as [<-|[<-|[]]]; cbn in *.
    + now destruct Hstate.
    + reflexivity.
Defined.

Lemma quot_minutes_le (d k : Z) :
  0 <= k -> (Z.quot d 60000 <=? k) = (d <? (k + 1) * 60000).
Proof.
  intros Hk. pose proof (Z.quot_rem' d 60000) as Hqr.
  destruct (Z.le_gt_cases 0 d) as [Hd|Hd].
  - pose proof (Z.rem_bound_pos d 60000 Hd ltac:(lia)) as Hr.
    destruct (Z.leb_spec (Z.quot d 60000) k), (Z.ltb_spec d ((k + 1) * 60000));
      try reflexivity; lia.
  - assert (Hq : Z.quot d 60000 <= 0).
    { rewrite <- (Z.opp_involutive d), Z.quot_opp_l by lia.
      pose proof (Z.quot_pos (- d) 60000 ltac:(lia) ltac:(lia)). lia. }
    destruct (Z.leb_spec (Z.quot d 60000) k), (Z.ltb_spec d ((k + 1) * 60000));
      try reflexivity; lia.
Qed.

(** X14. The tiers of the countdown. For a task that is not done, whose
    converted due date [z] is not past and whose converted now is [n], the
    colour goes by the milliseconds [z - n] left: red below 61 minutes,
    orange below 6 hours and a minute, yellow below a day and a minute,
    light green below three days and a minute, green from there on; a
    negative difference is red. The weight is 600 below 6 hours and a
    minute and 400 from there on. *)
Theorem X14_countdown_tiers :
  forall (b : Browser) (userLocation : option LocationData)
         (item : TodoDisplayItem) (v : DateOrString) (z n : Z),
    display_state item <> Done ->
    originalDueDate item = Some v ->
    has_due (Some v) = true ->
    lib_toZonedTime b (fst (new_Date_of v b))
                    (fst (userTimezone_of userLocation b)) = Instant z ->
    lib_toZonedTime b (Instant (clock b (reads b)))
                    (fst (userTimezone_of userLocation b)) = Instant n ->
    clock b (S (reads b)) <= z ->
    let shown := fst (renderItemColumn_countdown userLocation item b) in
    color shown = color_of_remaining (z - n)
    /\ fontWeight shown = (if z - n <? 21660000 then "600" else "400").
Proof.
  intros b userLocation item v z n Hstate Hdue Hhas Hz Hn Hcmp shown.
  assert (Hnot : TodoItemState_eqb (display_state item) Done = false)
    by (destruct (display_state item); [reflexivity|reflexivity|contradiction]).
  apply Z.ltb_ge in Hcmp. subst shown.
  split;
    unfold renderItemColumn_countdown; rewrite Hnot, Hdue, Hhas;
    unfold bind at 1 2; rewrite new_Date_of_run;
    unfold bind at 1; rewrite userTimezone_of_run;
    unfold bind, new_Date, Date_now, toZonedTime, isPast, differenceInDays,
      asks, ret;
    cbn; rewrite Hz, Hn, Hcmp; cbn;
    rewrite !quot_minutes_le by lia; unfold color_of_remaining;
    change ((60 + 1) * 60000) with 3660000;
    change ((360 + 1) * 60000) with 21660000;
    change ((1440 + 1) * 60000) with 86460000;
    change ((4320 + 1) * 60000) with 259260000;
    destruct (Z.ltb_spec (z - n) 3660000), (Z.ltb_spec (z - n) 21660000),
      (Z.ltb_spec (z - n) 86460000), (Z.ltb_spec (z - n) 259260000);
    cbn; try reflexivity; lia.
Qed.

Lemma X14_witness :
  color (fst (renderItemColumn_countdown None due_soon desk)) = "#ff8c00"
  /\ fontWeight (fst (renderItemColumn_countdown None due_soon desk)) = "600".
Proof.
  apply (X14_countdown_tiers desk None due_soon (ADate (Instant 8200000))
                             8200000 1000000);
    [discriminate|reflexivity|reflexivity|reflexivity|reflexivity|cbn; lia].
Defined.

(** X15. A due date that cannot be read. For a task that is not done and
    whose due date is a text [new Date] makes an Invalid Date of, in a
    browser whose time-zone conversion and day difference pass Invalid Date
    and NaN on, the cell shows "NaNd NaNh NaNm NaNs" (and the location) in
    the green of the least urgent tier, at weight 400. *)
Theorem X15_unreadable_due_date_shows_NaN :
  forall (b : Browser) (userLocation : option LocationData)
         (item : TodoDisplayItem) (s : string),
    display_state item <> Done ->
    originalDueDate item = Some (AString s) ->
    has_due (Some (AString s)) = true ->
    parse b s = InvalidDate ->
    (forall tz, lib_toZonedTime b InvalidDate tz = InvalidDate) ->
    (forall d, lib_differenceInDays b InvalidDate d = None) ->
    fst (renderItemColumn_countdown userLocation item b)
    = mkText ("NaNd NaNh NaNm NaNs" ++ locationInfo_of userLocation)
             "#107c10" "400".
Proof.
  intros b userLocation item s Hstate Hdue Hhas Hparse Hzone Hdays.
  assert (Hnot : TodoItemState_eqb (display_state item) Done = false)
    by (destruct (display_state item); [reflexivity|reflexivity|contradiction]).
  unfold renderItemColumn_countdown. rewrite Hnot, Hdue, Hhas.
  unfold bind at 1 2. unfold new_Date_of, asks. rewrite Hparse.
  unfold bind at 1. rewrite userTimezone_of_run.
  unfold bind, new_Date, Date_now, toZonedTime, isPast, differenceInDays,
    asks, ret.
  cbn. rewrite Hzone. cbn. rewrite Hdays. reflexivity.
Qed.

Lemma X15_witness :
  fst (renderItemColumn_countdown None garbled desk)
  = mkText "NaNd NaNh NaNm NaNs" "#107c10" "400".
Proof.
  apply (X15_unreadable_due_date_shows_NaN desk None garbled "soon");
    [discriminate|reflexivity|reflexivity|reflexivity| |];
    intros; reflexivity.
Defined.

(** X16. The zone the countdown converts into is never empty when the
    system has one: it is the zone of the pane's own location when that is
    not empty, else the zone of the location service's cached location when
    that is not empty, else the system zone. *)
Theorem X16_user_timezone_precedence :
  forall (b : Browser) (userLocation : option LocationData),
    let zone := fst (userTimezone_of userLocation b) in
    (forall l, userLocation = Some l -> timezone l <> "" -> zone = timezone l)
    /\ ((forall l, userLocation = Some l -> timezone l = "") ->
        forall c, cachedLocation b = Some c -> timezone c <> "" ->
                  zone = timezone c)
    /\ ((forall l, userLocation = Some l -> timezone l = "") ->
        (forall c, cachedLocation b = Some c -> timezone c = "") ->
        zone = resolvedTimeZone b)
    /\ (resolvedTimeZone b <> "" -> zone <> "").
Proof.
  intros b userLocation zone. subst zone.
  assert (Htruthy : forall s, truthy s = true <-> s <> "").
  { intros s. unfold truthy. rewrite negb_true_iff. apply String.eqb_neq. }
  unfold userTimezone_of, getCurrentTimezone, bind, asks, ret.
  destruct userLocation as [l|]; [destruct (truthy (timezone l)) eqn:Hl|];
    cbn; (destruct (cachedLocation b) as [c|];
          [destruct (truthy (timezone c)) eqn:Hc|]); cbn;
    repeat split; intros;
    repeat match goal with
           | H : Some _ = Some _ |- _ => injection H as <-
           | H : truthy _ = true |- _ => apply Htruthy in H
           | H : truthy ?s = false |- _ =>
               assert (s = "")
                 by (destruct (String.eqb_spec s "") as [E|E];
                     [exact E|apply Htruthy in E; congruence]);
               clear H
           | H : forall l, Some ?x = Some l -> _ |- _ =>
               specialize (H x eq_refl)
           end;
    try congruence; try discriminate; auto.
Qed.

Lemma X16_witness :
  fst (userTimezone_of (Some (mkLocationData "Europe/Paris" None None)) desk)
  = "Europe/Paris"
  /\ fst (userTimezone_of (Some (mkLocationData "" None None)) desk) = "UTC"
  /\ fst (userTimezone_of None desk) <> "".
Proof.
  split; [|split].
  - destruct (X16_user_timezone_precedence
                desk (Some (mkLocationData "Europe/Paris" None None)))
      as [H _].
    apply (H (mkLocationData "Europe/Paris" None None));
      [reflexivity|discriminate].
  - destruct (X16_user_timezone_precedence
                desk (Some (mkLocationData "" None None)))
      as [_ [_ [H _]]].
    apply H.
    + intros l Hl. injection Hl as <-. reflexivity.
    + intros c Hc. discriminate.
  - destruct (X16_user_timezone_precedence desk None) as [_ [_ [_ H]]].
    apply H. discriminate.
Defined.

(** ** More on saving *)

(** X17. What [saveTodoItem] hands over. Without an item, or for an item
    whose id is missing or empty, it hands nothing over and does not read
    the clock. Otherwise the item handed over keeps the id, the list and
    the creation date of the edited item and takes name and description
    from the form; a time typed without a date is dropped (no due date), a
    date without a time is passed as it is; and the update date is a
    reading of the clock. *)
Theorem X17_saveTodoItem_keeps_identity :
  forall (props_item : option TodoItem) (nm : string)
         (descr : option string) (due : option Date) (dueTime : string)
         (selected : TodoItemState) (b : Browser),
    ((props_item = None
      \/ exists item, props_item = Some item
                      /\ (id item = None \/ id item = Some "")) ->
     saveTodoItem props_item nm descr due dueTime selected b = (None, b))
    /\ (forall item i,
        props_item = Some item -> id item = Some i -> i <> "" ->
        exists t b',
          saveTodoItem props_item nm descr due dueTime selected b
          = (Some t, b')
          /\ id t = Some i /\ listId t = listId item
          /\ createdDate t = createdDate item
          /\ name t = nm /\ description t = descr
          /\ (due = None -> dueDate t = None)
          /\ (dueTime = "" -> dueDate t = due)
          /\ exists k, updatedDate t = Some (Instant (clock b k))
                       /\ (reads b <= k <= reads b + 1)%nat
                       /\ reads b' = S k).
Proof.
  intros props_item nm descr due dueTime selected b. split.
  - intros [->|(item & -> & [Hid|Hid])]; unfold saveTodoItem;
      [reflexivity|now rewrite Hid|now rewrite Hid].
  - intros item i -> Hid Hi. unfold saveTodoItem. rewrite Hid.
    apply String.eqb_neq in Hi. unfold truthy at 1. rewrite Hi. cbn [negb].
    unfold bind at 1. rewrite combinedDueDate_of_run.
    unfold bind, new_Date, Date_now, ret.
    assert (Hnone : due = None -> fst (combinedDueDate_of due dueTime b) = None)
      by (now intros ->).
    assert (Hblank : dueTime = "" ->
                     fst (combinedDueDate_of due dueTime b) = due)
      by (intros ->; now destruct due).
    destruct selected, (completedDate item); cbn;
      (eexists; eexists; split; [reflexivity|]); cbn;
      repeat split; auto;
      solve [ exists (reads b); repeat split; auto; lia
            | exists (S (reads b)); repeat split; auto; lia ].
Qed.

Lemma X17_witness :
  saveTodoItem (Some (mkTodoItem (Some "") "A" "x" Todo None None None
                                 None None))
               "x" None None "09:30" Done desk
  = (None, desk)
  /\ exists t b',
      saveTodoItem (Some slides) "deck" (Some "v2") None "09:30" InProgress
                   desk
      = (Some t, b')
      /\ id t = Some "i2" /\ listId t = "A"
      /\ createdDate t = Some (Instant 7200)
      /\ name t = "deck" /\ description t = Some "v2"
      /\ dueDate t = None.
Proof.
  split.
  - destruct (X17_saveTodoItem_keeps_identity
                (Some (mkTodoItem (Some "") "A" "x" Todo None None None
                                  None None))
                "x" None None "09:30" Done desk) as [H _].
    apply H. right. eexists. split; [reflexivity|]. now right.
  - destruct (X17_saveTodoItem_keeps_identity
                (Some slides) "deck" (Some "v2") None "09:30" InProgress desk)
      as [_ H].
    destruct (H slides "i2" eq_refl eq_refl)
      as (t & b' & Hrun & Hid & Hl & Hc & Hn & Hd & Hdue & _);
      [discriminate|].
    exists t, b'. repeat split; auto.
Defined.

(** X18. How saved items travel. [save] sends an entity with a non-empty id
    as a PUT to that id and any other as a POST without a URL, with the
    same five members either way. So what the detail pane hands over always
    goes out as a PUT to the id of the edited item, and what the add box
    hands over, which it does exactly when the name typed is not empty,
    goes out as a POST of a Todo item without dates. *)
Theorem X18_save_puts_edits_and_posts_new_items :
  (forall entity,
      ItemServiceCalls.data (ItemServiceCalls.save entity)
      = ItemService.updateData entity
      /\ (forall i, id entity = Some i -> i <> "" ->
          ItemServiceCalls.method (ItemServiceCalls.save entity) = "PUT"
          /\ ItemServiceCalls.url (ItemServiceCalls.save entity) = Some i)
      /\ (id entity = None \/ id entity = Some "" ->
          ItemServiceCalls.method (ItemServiceCalls.save entity) = "POST"
          /\ ItemServiceCalls.url (ItemServiceCalls.save entity) = None))
  /\ (forall props_item nm descr due dueTime selected b t b',
      saveTodoItem props_item nm descr due dueTime selected b = (Some t, b') ->
      exists item i,
        props_item = Some item /\ id item = Some i
        /\ ItemServiceCalls.save t
           = ItemServiceCalls.mkRequest "PUT" (Some i)
                                        (ItemService.updateData t))
  /\ (forall newItemName list_id,
      (onFormSubmit newItemName list_id = None <-> newItemName = "")
      /\ (forall t,
          onFormSubmit newItemName list_id = Some t ->
          ItemServiceCalls.save t
          = ItemServiceCalls.mkRequest
              "POST" None
              (ItemService.mkUpdateData newItemName Todo None None None))).
Proof.
  repeat apply conj.
  - intros entity.
    unfold ItemServiceCalls.save, ItemServiceCalls.updateItem,
      ItemServiceCalls.createItem.
    destruct (id entity) as [i|] eqn:Hid.
    + destruct (truthy i) eqn:Hi; cbn; (split; [reflexivity|]); split.
      * intros j Hj Hne. injection Hj as <-. now split.
      * intros [Hnone|Hblank]; [discriminate|].
        injection Hblank as ->. discriminate.
      * intros j Hj Hne. injection Hj as <-. unfold truthy in Hi.
        apply negb_false_iff, String.eqb_eq in Hi. contradiction.
      * intros _. now split.
    + cbn. split; [reflexivity|]. split; [discriminate|].
      intros _. now split.
  - intros props_item nm descr due dueTime selected b t b' Hrun.
    unfold saveTodoItem in Hrun.
    destruct props_item as [item|]; [|discriminate].
    destruct (id item) as [i|] eqn:Hid; [|discriminate].
    destruct (truthy i) eqn:Hi; cbn [negb] in Hrun; [|discriminate].
    exists item, i. split; [reflexivity|]. split; [exact Hid|].
    unfold bind at 1 in Hrun. rewrite combinedDueDate_of_run in Hrun.
    unfold bind, new_Date, Date_now, ret in Hrun.
    destruct selected, (completedDate item); cbn in Hrun;
      injection Hrun as <- _;
      unfold ItemServiceCalls.save, ItemServiceCalls.updateItem; cbn;
      now rewrite Hi.
  - intros newItemName list_id. unfold onFormSubmit, truthy.
    destruct (String.eqb_spec newItemName "") as [->|Hne]; cbn.
    + repeat split; discriminate.
    + repeat split; try discriminate; try contradiction.
      intros t Ht. injection Ht as <-. reflexivity.
Qed.

Lemma X18_witness :
  ItemServiceCalls.method (ItemServiceCalls.save slides) = "PUT"
  /\ ItemServiceCalls.url (ItemServiceCalls.save slides) = Some "i2"
  /\ ItemServiceCalls.method
       (ItemServiceCalls.save
          (mkTodoItem (Some "") "A" "x" Todo None None None None None))
     = "POST".
Proof.
  destruct X18_save_puts_edits_and_posts_new_items as [Hsave _].
  destruct (Hsave slides) as (_ & Hput & _).
  destruct (Hsave (mkTodoItem (Some "") "A" "x" Todo None None None None None))
    as (_ & _ & Hpost).
  split; [|split].
  - apply (Hput "i2"); [reflexivity|discriminate].
  - apply (Hput "i2"); [reflexivity|discriminate].
  - apply Hpost. now right.
Defined.

(** X19. The due time survives the round trip through the form. The text
    the pane shows for [h] hours and [m] minutes of a day is not empty, and
    [saveTodoItem] reads the same [h] and [m] back from it; so with a date
    picked, the due date it hands over is that date set to [h]:[m] and
    taken in the current time zone. *)
Theorem X19_dueTime_round_trip :
  forall (h m : Z),
    0 <= h < 24 -> 0 <= m < 60 ->
    let parts := split_colon (dueTime_of (Some h) (Some m)) in
    truthy (dueTime_of (Some h) (Some m)) = true
    /\ parseInt (nth_error parts 0) = Some h
    /\ parseInt (nth_error parts 1) = Some m
    /\ (forall d b,
        combinedDueDate_of (Some d) (dueTime_of (Some h) (Some m)) b
        = (Some (lib_inTimeZone b (lib_setHours b d (Some h) (Some m))
                                (fst (getCurrentTimezone b))),
           b)).
Proof.
  intros h m Hh Hm parts.
  pose (is_num := fun (x : Number) (v : nat) =>
                    match x with
                    | Some y => y =? Z.of_nat v
                    | None => false
                    end).
  assert (Hall :
    forallb (fun hh =>
      forallb (fun mm =>
        let t := dueTime_of (Some (Z.of_nat hh)) (Some (Z.of_nat mm)) in
        truthy t
        && is_num (parseInt (nth_error (split_colon t) 0)) hh
        && is_num (parseInt (nth_error (split_colon t) 1)) mm)
        (seq 0 60)) (seq 0 24) = true) by (vm_compute; reflexivity).
  rewrite forallb_forall in Hall.
  specialize (Hall (Z.to_nat h)). rewrite in_seq in Hall.
  specialize (Hall ltac:(lia)). rewrite forallb_forall in Hall.
  specialize (Hall (Z.to_nat m)). rewrite in_seq in Hall.
  specialize (Hall ltac:(lia)). cbv zeta in Hall.
  rewrite !Z2Nat.id in Hall by lia.
  apply andb_prop in Hall. destruct Hall as [Hall H1].
  apply andb_prop in Hall. destruct Hall as [Htruthy H0].
  subst parts. unfold is_num in H0, H1.
  destruct (parseInt (nth_error (split_colon (dueTime_of (Some h) (Some m))) 0))
    as [x|] eqn:E0; [|discriminate].
  destruct (parseInt (nth_error (split_colon (dueTime_of (Some h) (Some m))) 1))
    as [y|] eqn:E1; [|discriminate].
  apply Z.eqb_eq in H0, H1. subst x y.
  rewrite (Z2Nat.id h) in * by lia. rewrite (Z2Nat.id m) in * by lia.
  repeat split; auto.
  intros d b. unfold combinedDueDate_of. rewrite Htruthy. cbv zeta.
  rewrite E0, E1.
  unfold bind, setHours, inTimeZone, asks, ret.
  pose proof (getCurrentTimezone_run b) as Htz.
  destruct (getCurrentTimezone b) as [tz b1]. cbn in Htz.
  injection Htz as <-. reflexivity.
Qed.

Lemma X19_witness :
  dueTime_of (Some 9) (Some 5) = "09:05"
  /\ parseInt (nth_error (split_colon (dueTime_of (Some 9) (Some 5))) 0)
     = Some 9
  /\ parseInt (nth_error (split_colon (dueTime_of (Some 9) (Some 5))) 1)
     = Some 5
  /\ fst (combinedDueDate_of (Some (Instant 86400000))
                             (dueTime_of (Some 9) (Some 5)) desk)
     = Some (Instant (86400000 + 9 * 3600000 + 5 * 60000)).
Proof.
  destruct (X19_dueTime_round_trip 9 5 ltac:(lia) ltac:(lia))
    as (_ & Hh & Hm & Hdue).
  split; [reflexivity|]. split; [exact Hh|]. split; [exact Hm|].
  rewrite (Hdue (Instant 86400000) desk). reflexivity.
Defined.

(** ** The groups of the list pane *)

Lemma filter_none {A : Type} (p : A -> bool) (l : list A) :
  (forall x, In x l -> p x = false) -> filter p l = [].
Proof.
  induction l as [|x l IH]; intros H; [reflexivity|].
  cbn. rewrite (H x (or_introl eq_refl)). apply IH.
  intros y Hy. apply H. now right.
Qed.

Lemma filter_all {A : Type} (p : A -> bool) (l : list A) :
  (forall x, In x l -> p x = true) -> filter p l = l.
Proof.
  induction l as [|x l IH]; intros H; [reflexivity|].
  cbn. rewrite (H x (or_introl eq_refl)). f_equal. apply IH.
  intros y Hy. apply H. now right.
Qed.

Lemma findIndex_none {A : Type} (p : A -> bool) (l : list A) :
  (forall x, In x l -> p x = false) -> findIndex p l = -1.
Proof.
  induction l as [|x l IH]; intros H; [reflexivity|].
  cbn. rewrite (H x (or_introl eq_refl)). rewrite IH; [reflexivity|].
  intros y Hy. apply H. now right.
Qed.

Lemma findIndex_after {A : Type} (p : A -> bool) (pre : list A) (x : A)
    (rest : list A) :
  (forall y, In y pre -> p y = false) -> p x = true ->
  findIndex p (pre ++ x :: rest) = Z.of_nat (List.length pre).
Proof.
  intros Hpre Hx. induction pre as [|y pre IH]; cbn [app findIndex].
  - now rewrite Hx.
  - rewrite (Hpre y (or_introl eq_refl)). rewrite IH.
    + destruct (Z.ltb_spec (Z.of_nat (List.length pre)) 0); [lia|].
      cbn [List.length]. lia.
    + intros z Hz. apply Hpre. now right.
Qed.

Lemma in_state_iff s i : in_state s i = true <-> display_state i = s.
Proof.
  unfold in_state. destruct (display_state i), s; cbn; split;
    congruence || reflexivity.
Qed.

(** X20. The groups fit a list sorted by state. If the tasks in state [s]
    stand together, after [pre] and before [post], then the group of [s]
    counts exactly them and, when there are any, starts at the length of
    [pre], so that its slice of the list is exactly the tasks in state [s];
    when there are none its count is 0 and its start index -1. There is one
    group for each of Todo, In Progress and Done, in this order, and only
    the Done group carries the collapsed flag. *)
Theorem X20_groups_slice_a_sorted_list :
  forall (pre mid post : list TodoDisplayItem) (s : TodoItemState)
         (collapsed : bool),
    (forall i, In i pre -> display_state i <> s) ->
    (forall i, In i mid -> display_state i = s) ->
    (forall i, In i post -> display_state i <> s) ->
    let gs := groups (pre ++ mid ++ post) collapsed in
    map key gs = [Todo; InProgress; Done]
    /\ map isCollapsed gs = [None; None; Some collapsed]
    /\ forall g, In g gs -> key g = s ->
         count g = List.length mid
         /\ (mid <> [] -> startIndex g = Z.of_nat (List.length pre))
         /\ (mid = [] -> startIndex g = -1)
         /\ (mid <> [] ->
             firstn (count g) (skipn (Z.to_nat (startIndex g))
                                     (pre ++ mid ++ post)) = mid).
Proof.
  intros pre mid post s collapsed Hpre Hmid Hpost gs.
  assert (Hpre' : forall i, In i pre -> in_state s i = false).
  { intros i Hi. destruct (in_state s i) eqn:E; [|reflexivity].
    apply in_state_iff in E. now destruct (Hpre i Hi). }
  assert (Hpost' : forall i, In i post -> in_state s i = false).
  { intros i Hi. destruct (in_state s i) eqn:E; [|reflexivity].
    apply in_state_iff in E. now destruct (Hpost i Hi). }
  assert (Hmid' : forall i, In i mid -> in_state s i = true).
  { intros i Hi. now apply in_state_iff, Hmid. }
  assert (Hcount : List.length (filter (in_state s) (pre ++ mid ++ post))
                   = List.length mid).
  { rewrite !filter_app, (filter_none _ pre Hpre'),
      (filter_none _ post Hpost'), (filter_all _ mid Hmid').
    now rewrite app_nil_r. }
  assert (Hstart : mid <> [] ->
                   findIndex (in_state s) (pre ++ mid ++ post)
                   = Z.of_nat (List.length pre)).
  { intros Hne. destruct mid as [|x mid']; [contradiction|].
    cbn [app]. apply findIndex_after; [exact Hpre'|].
    apply Hmid'. now left. }
  assert (Hempty : mid = [] ->
                   findIndex (in_state s) (pre ++ mid ++ post) = -1).
  { intros ->. apply findIndex_none. intros i Hi. cbn in Hi.
    apply in_app_or in Hi. destruct Hi; auto. }
  split; [reflexivity|]. split; [reflexivity|].
  intros g Hg Hkey. subst gs. unfold groups in Hg.
  assert (Hg' : count g = List.length (filter (in_state s) (pre ++ mid ++ post))
                /\ startIndex g = findIndex (in_state s) (pre ++ mid ++ post)).
  { destruct Hg as [<-|[<-|[<-|[]]]]; cbn in Hkey; subst s; now split. }
  destruct Hg' as [-> ->]. rewrite Hcount. repeat split; auto.
  intros Hne. rewrite (Hstart Hne), Nat2Z.id.
  rewrite skipn_app, skipn_all, Nat.sub_diag. cbn [app skipn].
  rewrite firstn_app, firstn_all, Nat.sub_diag. cbn. apply app_nil_r.
Qed.

Lemma X20_witness :
  exists g,
    In g (groups ([] ++ [due_now; just_missed] ++ []) true)
    /\ key g = InProgress
    /\ count g = 2%nat /\ startIndex g = 0.
Proof.
  destruct (X20_groups_slice_a_sorted_list
              [] [due_now; just_missed] [] InProgress true)
    as (_ & _ & H).
  - intros i [].
  - intros i [<-|[<-|[]]]; reflexivity.
  - intros i [].
  - eexists. split; [right; left; reflexivity|]. split; [reflexivity|].
    match goal with
    | |- count ?g = _ /\ _ =>
        destruct (H g (or_intror (or_introl eq_refl)) eq_refl)
          as (Hc & Hs & _)
    end.
    split; [exact Hc|]. apply Hs. discriminate.
Defined.

End WebFacts.
